(** * Event-engine states, request validation and configuration defaults

    A shallow embedding of the parts of the PubNub JavaScript SDK that the
    specification talks about:

    - the [UNSUBSCRIBED] state of the Subscription Event Engine and the
      [HEARTBEAT_COOLDOWN] state of the Presence Event Engine
      (compiled state modules, [exports.UnsubscribedState] and
      [exports.HeartbeatCooldownState]);
    - [SetChannelMembersRequest.validate] and
      [SetUUIDMembershipsRequest.validate];
    - [setDefaults] of [core/interfaces/configuration].

    JavaScript values are modelled as follows.  A string is a [string] whose
    characters are read as UTF-16 code units below 256.  An optional
    property ([undefined] or [null]) is an [option].  An array is a [list].
    An integer-valued number is a [Z]; a number that may be fractional is a
    [Q]. *)

From Stdlib Require Import Ascii String ZArith QArith DecimalString.
From stdpp Require Import base decidable option list strings.

#[local] Open Scope Z_scope.
#[local] Open Scope string_scope.
#[local] Open Scope list_scope.

(** ** JavaScript coercions used by the sources *)

Module Js.

(** [!!s] for an optional string: [undefined], [null] and [''] are falsy. *)
Definition truthy (s : option string) : bool :=
  match s with
  | Some s => negb (String.eqb s "")
  | None => false
  end.

(** [!!b] for an optional boolean. *)
Definition truthy_bool (b : option bool) : bool :=
  match b with
  | Some b => b
  | None => false
  end.

(** [a ?? b] *)
Definition nullish {A} (a : option A) (b : A) : A :=
  match a with
  | Some a => a
  | None => b
  end.

(** [a ??= b] on an optional property whose default may itself be absent. *)
Definition nullish_assign {A} (a b : option A) : option A :=
  match a with
  | Some a => Some a
  | None => b
  end.

(** Code units that [String.prototype.trim] strips (WhiteSpace and
    LineTerminator), below 256: TAB, LF, VT, FF, CR, SP and NBSP. *)
Definition is_white_space (c : ascii) : bool :=
  let n := nat_of_ascii c in
  ((9 <=? n) && (n <=? 13) || (n =? 32) || (n =? 160))%nat.

Fixpoint trimStart (s : string) : string :=
  match s with
  | String c s' => if is_white_space c then trimStart s' else s
  | EmptyString => EmptyString
  end.

Definition reverse_string (s : string) : string :=
  string_of_list_ascii (rev (list_ascii_of_string s)).

Definition trimEnd (s : string) : string :=
  reverse_string (trimStart (reverse_string s)).

(** [s.trim()] *)
Definition trim (s : string) : string := trimEnd (trimStart s).

(** The string consists of white space only (the empty string does). *)
Definition all_white_space (s : string) : bool :=
  forallb is_white_space (list_ascii_of_string s).

(** [`${n}`] for an integer-valued number below 1e21 in magnitude: the
    decimal digits, with a leading minus sign when negative. *)
Definition number_to_string (n : Z) : string :=
  NilZero.string_of_int (Z.to_int n).

End Js.

(** ** Event engine core *)

(** Modelled from the spec: the generic state descriptor ([core/state]) and
    the engine runtime ([core/engine]) are not among the sources; only their
    callers are (the state modules call [new State], [on], [onEnter],
    [onExit] and [with]).  Section 4.1 of the specification: processing an
    event looks up the current state and the event kind in the transition
    table; if absent the event is a no-op; if present the next state and the
    effects are computed, the current state is replaced and each effect is
    invoked in emitted order.  Section 5: a state exit cancels the pending
    timer, which is what the exit effects a state module registers are for.
    The order of invocation is taken to be: the exit effects of the state
    left, the effects of the transition, the enter effects of the state
    entered.

    A state is referred to by its label, and the engine resolves labels
    through the [states] table. *)
Module Core.
Section StateMachine.

Context {Label EventType Effect : Type} `{EqDecision EventType}.
Context (contextOf : Label → Type) (payloadOf : EventType → Type).

(** An event object [{ type, payload }]. *)
Record Event := mkEvent {
  type : EventType;
  payload : payloadOf type;
}.

(** The triple [[state, context, effects]] a transition function returns. *)
Record Transition := mkTransition {
  target : Label;
  targetContext : contextOf target;
  effects : list Effect;
}.

(** A transition function registered for the event type [t]; it receives
    the context and the event, whose payload has the shape of [t]. *)
Definition TransitionFunction (S : Type) (t : EventType) : Type :=
  S → payloadOf t → Transition.

(** Modelled from the spec: a state descriptor, "a named node" with "a
    transition table mapping event kind" to the next state and the emitted
    effects (section 3), together with the enter and exit effects the state
    modules register. *)
Record State (S : Type) := mkState {
  label : Label;
  transitionMap : ∀ t : EventType, option (TransitionFunction S t);
  enterEffects : list (S → Effect);
  exitEffects : list (S → Effect);
}.
#[global] Arguments mkState {S}.
#[global] Arguments label {S}.
#[global] Arguments transitionMap {S}.
#[global] Arguments enterEffects {S}.
#[global] Arguments exitEffects {S}.

(** [new State(label)] *)
Definition new_State (S : Type) (l : Label) : State S :=
  mkState l (λ _, None) [] [].

(** [state.on(eventType, transition)]: [transitionMap.set]. *)
Definition on {S} (t : EventType) (f : TransitionFunction S t)
    (st : State S) : State S :=
  mkState (label st)
    (λ t', match decide (t = t') with
           | left e => Some (eq_rect t (TransitionFunction S) f t' e)
           | right _ => transitionMap st t'
           end)
    (enterEffects st) (exitEffects st).

(** [state.onEnter(effect)]: [enterEffects.push]. *)
Definition onEnter {S} (effect : S → Effect) (st : State S) : State S :=
  mkState (label st) (transitionMap st)
    (enterEffects st ++ [effect]) (exitEffects st).

(** [state.onExit(effect)]: [exitEffects.push]. *)
Definition onExit {S} (effect : S → Effect) (st : State S) : State S :=
  mkState (label st) (transitionMap st)
    (enterEffects st) (exitEffects st ++ [effect]).

(** [state.with(context, effects)]: [[this, context, effects ?? []]]. *)
Definition with_ (l : Label) (context : contextOf l)
    (effs : option (list Effect)) : Transition :=
  mkTransition l context (Js.nullish effs []).

(** Modelled from the spec: [state.transition(context, event)], the lookup
    of section 4.1: the registered function applied, or [undefined] when the
    map has no entry for the event type. *)
Definition transition {S} (st : State S) (context : S) (event : Event)
    : option Transition :=
  match transitionMap st (type event) with
  | Some f => Some (f context (payload event))
  | None => None
  end.

(** Modelled from the spec: the engine "holds current state + context"
    (section 2). *)
Record Engine := mkEngine {
  currentState : Label;
  currentContext : contextOf currentState;
}.

Variable states : ∀ l : Label, State (contextOf l).

(** Modelled from the spec: processing one event (section 4.1).  The result
    is the new engine and the effects invoked, in order; an event without a
    transition leaves the engine as it is and invokes nothing. *)
Definition process (engine : Engine) (event : Event)
    : Engine * list Effect :=
  let st := states (currentState engine) in
  match transition st (currentContext engine) event with
  | None => (engine, [])
  | Some tr =>
      (mkEngine (target tr) (targetContext tr),
       map (λ effect, effect (currentContext engine)) (exitEffects st)
       ++ effects tr
       ++ map (λ effect, effect (targetContext tr))
            (enterEffects (states (target tr))))
  end.

End StateMachine.

Arguments type {EventType payloadOf} e.
Arguments payload {EventType payloadOf} e.
Arguments target {Label Effect contextOf} t.
Arguments targetContext {Label Effect contextOf} t.
Arguments effects {Label Effect contextOf} t.
Arguments label {Label EventType Effect contextOf payloadOf S} s.
Arguments transitionMap {Label EventType Effect contextOf payloadOf S} s t.
Arguments enterEffects {Label EventType Effect contextOf payloadOf S} s.
Arguments exitEffects {Label EventType Effect contextOf payloadOf S} s.
Arguments on {Label EventType Effect _ contextOf payloadOf S} t f st.
Arguments onEnter {Label EventType Effect contextOf payloadOf S} effect st.
Arguments onExit {Label EventType Effect contextOf payloadOf S} effect st.
Arguments transition {Label EventType Effect contextOf payloadOf S}
  st context event.
Arguments currentState {Label contextOf} e.
Arguments currentContext {Label contextOf} e.
Arguments process {Label EventType Effect contextOf payloadOf}
  states engine event.

End Core.

(** ** Subscription Event Engine: the [UNSUBSCRIBED] state *)

Module Subscription.

(** State labels.  ['UNSUBSCRIBED'] is the label the state module passes to
    [new State]; the module refers to one more state, [HandshakingState].
    Modelled from the spec: the remaining labels are the states section 4.2
    lists, whose modules are not among the sources. *)
Inductive Label :=
| UNSUBSCRIBED
| HANDSHAKING
| HANDSHAKE_FAILED
| HANDSHAKE_STOPPED
| RECEIVING
| RECEIVE_FAILED
| RECEIVE_STOPPED.

(** [{ timetoken, region }] as stored in a context. *)
Record Cursor := mkCursor {
  timetoken : string;
  region : Z;
}.

(** The context object [HandshakingState.with] is given:
    [{ channels, groups, cursor? }]. *)
Record Context := mkContext {
  channels : list string;
  groups : list string;
  cursor : option Cursor;
}.

(** [UnsubscribedState.with(undefined)]: the context of the rest state is
    [undefined]. *)
Definition contextOf (l : Label) : Type :=
  match l with
  | UNSUBSCRIBED => unit
  | _ => Context
  end.

(** A caller-supplied timetoken is a string or a number. *)
Inductive TimetokenInput :=
| timetoken_string (s : string)
| timetoken_number (n : Z).

(** The template literal [`${timetoken}`]. *)
Definition template_literal (t : TimetokenInput) : string :=
  match t with
  | timetoken_string s => s
  | timetoken_number n => Js.number_to_string n
  end.

Record CursorInput := mkCursorInput {
  input_timetoken : TimetokenInput;
  input_region : Z;
}.

Record SubscriptionChangePayload := mkSubscriptionChangePayload {
  change_channels : list string;
  change_groups : list string;
}.

Record RestorePayload := mkRestorePayload {
  restore_channels : list string;
  restore_groups : list string;
  restore_cursor : CursorInput;
}.

(** Event types.  [subscriptionChange] and [restore] are the two the state
    module registers.  Modelled from the spec: the other event kinds of
    section 3 that concern this engine, with the payloads section 4.2
    gives them (a cursor, a failure reason, received message bodies). *)
Inductive EventType :=
| subscriptionChange_type
| restore_type
| handshakeSuccess_type
| handshakeFailure_type
| receiveSuccess_type
| receiveFailure_type
| disconnect_type
| reconnect_type.

#[global] Instance subscription_EventType_eq_dec : EqDecision EventType.
Proof. solve_decision. Defined.

#[global] Instance subscription_Label_eq_dec : EqDecision Label.
Proof. solve_decision. Defined.

Definition payloadOf (t : EventType) : Type :=
  match t with
  | subscriptionChange_type => SubscriptionChangePayload
  | restore_type => RestorePayload
  | handshakeSuccess_type => Cursor
  | handshakeFailure_type => string
  | receiveSuccess_type => Cursor * list string
  | receiveFailure_type => string
  | disconnect_type => unit
  | reconnect_type => unit
  end.

Abbreviation Event := (Core.Event payloadOf).

Definition subscriptionChange (channels groups : list string) : Event :=
  Core.mkEvent payloadOf subscriptionChange_type
    (mkSubscriptionChangePayload channels groups).

Definition restore (channels groups : list string)
    (timetoken : TimetokenInput) (region : Z) : Event :=
  Core.mkEvent payloadOf restore_type
    (mkRestorePayload channels groups (mkCursorInput timetoken region)).

Section States.

(** The effects of this engine; the [UNSUBSCRIBED] state builds none. *)
Context {Effect : Type}.

Abbreviation Transition := (@Core.Transition Label Effect contextOf).
Abbreviation State := (@Core.State Label EventType Effect contextOf payloadOf).

(** [array.length === 0] *)
Definition is_empty (l : list string) : bool := (length l =? 0)%nat.

Definition on_subscriptionChange (_ : unit)
    (payload : SubscriptionChangePayload) : Transition :=
  if is_empty (change_channels payload) && is_empty (change_groups payload)
  then Core.with_ contextOf UNSUBSCRIBED tt None
  else Core.with_ contextOf HANDSHAKING
         (mkContext (change_channels payload) (change_groups payload) None)
         None.

Definition on_restore (_ : unit) (payload : RestorePayload) : Transition :=
  if is_empty (restore_channels payload) && is_empty (restore_groups payload)
  then Core.with_ contextOf UNSUBSCRIBED tt None
  else Core.with_ contextOf HANDSHAKING
         (mkContext (restore_channels payload) (restore_groups payload)
            (Some (mkCursor
                     (template_literal
                        (input_timetoken (restore_cursor payload)))
                     (input_region (restore_cursor payload)))))
         None.

Definition UnsubscribedState : State unit :=
  Core.on restore_type on_restore
    (Core.on subscriptionChange_type on_subscriptionChange
       (Core.new_State contextOf payloadOf unit UNSUBSCRIBED)).

(** The states of the engine.  The modules of the six other states are not
    among the sources, so their descriptors are parameters. *)
Variables HandshakingState HandshakeFailedState HandshakeStoppedState
  ReceivingState ReceiveFailedState ReceiveStoppedState : State Context.

Definition states (l : Label) : State (contextOf l) :=
  match l with
  | UNSUBSCRIBED => UnsubscribedState
  | HANDSHAKING => HandshakingState
  | HANDSHAKE_FAILED => HandshakeFailedState
  | HANDSHAKE_STOPPED => HandshakeStoppedState
  | RECEIVING => ReceivingState
  | RECEIVE_FAILED => ReceiveFailedState
  | RECEIVE_STOPPED => ReceiveStoppedState
  end.

End States.

(** A descriptor without transitions, to instantiate the states whose
    modules are absent when an example needs a complete table. *)
Definition placeholder_state
    : @Core.State Label EventType unit contextOf payloadOf Context :=
  Core.new_State contextOf payloadOf Context HANDSHAKING.

End Subscription.

(** ** Presence Event Engine: the [HEARTBEAT_COOLDOWN] state *)

Module Presence.

(** State labels.  ['HEARTBEAT_COOLDOWN'] is the label the state module
    passes to [new State]; the module refers to [HeartbeatingState],
    [HeartbeatStoppedState] and [HeartbeatInactiveState].  Modelled from the
    spec: [HEARTBEAT_FAILED], the fifth state of section 4.3. *)
Inductive Label :=
| HEARTBEAT_INACTIVE
| HEARTBEATING
| HEARTBEAT_COOLDOWN
| HEARTBEAT_FAILED
| HEARTBEAT_STOPPED.

(** The context object [{ channels, groups }]. *)
Record Context := mkContext {
  channels : list string;
  groups : list string;
}.

(** [HeartbeatInactiveState.with(undefined)]: the inactive state has no
    context. *)
Definition contextOf (l : Label) : Type :=
  match l with
  | HEARTBEAT_INACTIVE => unit
  | _ => Context
  end.

(** The invocations of the effects module that the state module builds:
    [leave(channels, groups)], [wait()] and [wait.cancel].  Modelled from the
    spec: [heartbeat], the effect section 4.3 lets the [Heartbeating] state
    emit. *)
Inductive Effect :=
| heartbeat (channels groups : list string)
| leave (channels groups : list string)
| wait
| wait_cancel.

(** Payload of [joined] and [left]. *)
Record MembersPayload := mkMembersPayload {
  payload_channels : list string;
  payload_groups : list string;
}.

(** Payload of [disconnect] and [leftAll]; [isOffline] may be left out. *)
Record OfflinePayload := mkOfflinePayload {
  isOffline : option bool;
}.

(** Event types.  [timesUp], [joined], [left], [disconnect] and [leftAll]
    are the ones the state module registers.  Modelled from the spec: the
    other event kinds of the presence engine (sections 3 and 4.3). *)
Inductive EventType :=
| timesUp_type
| joined_type
| left_type
| disconnect_type
| leftAll_type
| reconnect_type
| heartbeatSuccess_type
| heartbeatFailure_type.

#[global] Instance presence_EventType_eq_dec : EqDecision EventType.
Proof. solve_decision. Defined.

#[global] Instance presence_Label_eq_dec : EqDecision Label.
Proof. solve_decision. Defined.

#[global] Instance Effect_eq_dec : EqDecision Effect.
Proof. solve_decision. Defined.

Definition payloadOf (t : EventType) : Type :=
  match t with
  | timesUp_type => unit
  | joined_type => MembersPayload
  | left_type => MembersPayload
  | disconnect_type => OfflinePayload
  | leftAll_type => OfflinePayload
  | reconnect_type => unit
  | heartbeatSuccess_type => unit
  | heartbeatFailure_type => string
  end.

Abbreviation Event := (Core.Event payloadOf).
Abbreviation Transition := (@Core.Transition Label Effect contextOf).
Abbreviation State := (@Core.State Label EventType Effect contextOf payloadOf).
Abbreviation Engine := (@Core.Engine Label contextOf).

Definition timesUp : Event := Core.mkEvent payloadOf timesUp_type tt.

Definition joined (channels groups : list string) : Event :=
  Core.mkEvent payloadOf joined_type (mkMembersPayload channels groups).

Definition left (channels groups : list string) : Event :=
  Core.mkEvent payloadOf left_type (mkMembersPayload channels groups).

Definition disconnect (isOffline : option bool) : Event :=
  Core.mkEvent payloadOf disconnect_type (mkOfflinePayload isOffline).

Definition leftAll (isOffline : option bool) : Event :=
  Core.mkEvent payloadOf leftAll_type (mkOfflinePayload isOffline).

(** [[...context, ...added.filter((x) => !context.includes(x))]] *)
Definition append_missing (context added : list string) : list string :=
  context ++ filter (λ x, x ∉ context) added.

(** [context.filter((x) => !removed.includes(x))] *)
Definition without (context removed : list string) : list string :=
  filter (λ x, x ∉ removed) context.

Definition on_timesUp (context : Context) (_ : unit) : Transition :=
  Core.with_ contextOf HEARTBEATING
    (mkContext (channels context) (groups context)) None.

Definition on_joined (context : Context) (payload : MembersPayload)
    : Transition :=
  Core.with_ contextOf HEARTBEATING
    (mkContext
       (append_missing (channels context) (payload_channels payload))
       (append_missing (groups context) (payload_groups payload)))
    None.

Definition on_left (context : Context) (payload : MembersPayload)
    : Transition :=
  Core.with_ contextOf HEARTBEATING
    (mkContext
       (without (channels context) (payload_channels payload))
       (without (groups context) (payload_groups payload)))
    (Some [leave (payload_channels payload) (payload_groups payload)]).

(** [...(!event.payload.isOffline ? [leave(channels, groups)] : [])] *)
Definition leave_unless_offline (context : Context)
    (payload : OfflinePayload) : list Effect :=
  if negb (Js.truthy_bool (isOffline payload))
  then [leave (channels context) (groups context)]
  else [].

Definition on_disconnect (context : Context) (payload : OfflinePayload)
    : Transition :=
  Core.with_ contextOf HEARTBEAT_STOPPED
    (mkContext (channels context) (groups context))
    (Some (leave_unless_offline context payload)).

Definition on_leftAll (context : Context) (payload : OfflinePayload)
    : Transition :=
  Core.with_ contextOf HEARTBEAT_INACTIVE tt
    (Some (leave_unless_offline context payload)).

Definition HeartbeatCooldownState : State Context :=
  Core.on leftAll_type on_leftAll
    (Core.on disconnect_type on_disconnect
       (Core.on left_type on_left
          (Core.on joined_type on_joined
             (Core.on timesUp_type on_timesUp
                (Core.onExit (λ _, wait_cancel)
                   (Core.onEnter (λ _, wait)
                      (Core.new_State contextOf payloadOf Context
                         HEARTBEAT_COOLDOWN))))))).

(** The states of the engine.  The modules of the four other states are not
    among the sources, so their descriptors are parameters. *)
Section States.

Variable HeartbeatInactiveState : State unit.
Variables HeartbeatingState HeartbeatFailedState HeartbeatStoppedState
  : State Context.

Definition states (l : Label) : State (contextOf l) :=
  match l with
  | HEARTBEAT_INACTIVE => HeartbeatInactiveState
  | HEARTBEATING => HeartbeatingState
  | HEARTBEAT_COOLDOWN => HeartbeatCooldownState
  | HEARTBEAT_FAILED => HeartbeatFailedState
  | HEARTBEAT_STOPPED => HeartbeatStoppedState
  end.

End States.

(** Descriptors without transitions, to instantiate the states whose modules
    are absent when an example needs a complete table. *)
Definition placeholder_inactive : State unit :=
  Core.new_State contextOf payloadOf unit HEARTBEAT_INACTIVE.

Definition placeholder_heartbeating : State Context :=
  Core.new_State contextOf payloadOf Context HEARTBEATING.

(** The effects a [left] transition would carry if it consulted the
    [suppressLeaveEvents] setting, following the words of the specification
    ("emits a leave effect for the removed members unless leave-events are
    suppressed"); to be compared with [on_left]. *)
Definition spec_left_effects (suppressLeaveEvents : bool)
    (payload : MembersPayload) : list Effect :=
  if suppressLeaveEvents
  then []
  else [leave (payload_channels payload) (payload_groups payload)].

(** Modelled from the spec: the effect dispatcher is not among the sources.
    Section 4.6: the dispatcher tracks one active cancellation handle per
    effect channel; starting a new effect on a channel replaces the
    outstanding one; the completion event of a cancelled effect is dropped
    and never delivered to the engine.  Only the timer channel ([wait]) is
    modelled; a handle is the serial number of the timer it belongs to. *)
Record Dispatcher := mkDispatcher {
  next_handle : nat;
  active_wait : option nat;
}.

(** Modelled from the spec: invoking one effect.  [wait] starts a timer
    under a fresh handle, replacing the outstanding one; [wait.cancel] drops
    the active handle; the other effects do not touch the timer channel. *)
Definition dispatch (d : Dispatcher) (invocation : Effect) : Dispatcher :=
  match invocation with
  | wait => mkDispatcher (S (next_handle d)) (Some (next_handle d))
  | wait_cancel => mkDispatcher (next_handle d) None
  | _ => d
  end.

Definition dispatch_all (d : Dispatcher) (invocations : list Effect)
    : Dispatcher :=
  foldl dispatch d invocations.

(** Modelled from the spec: the timer with handle [h] runs out; [timesUp] is
    delivered to the engine only when [h] is still the active handle
    (section 4.6: a cancelled effect is dropped). *)
Definition timer_fired (d : Dispatcher) (h : nat) : option Event :=
  match active_wait d with
  | Some h' => if decide (h' = h) then Some timesUp else None
  | None => None
  end.

End Presence.

(** ** App Context requests: parameter validation *)

(** [request.validate()] returns an error message or [undefined]. *)
Definition ValidationResult : Type := option string.

Module SetChannelMembers.

Definition INCLUDE_CUSTOM_FIELDS : bool := false.
Definition INCLUDE_STATUS : bool := false.
Definition INCLUDE_TYPE : bool := false.
Definition INCLUDE_TOTAL_COUNT : bool := false.
Definition INCLUDE_UUID_FIELDS : bool := false.
Definition INCLUDE_UUID_STATUS_FIELD : bool := false.
Definition INCLUDE_UUID_TYPE_FIELD : bool := false.
Definition INCLUDE_UUID_CUSTOM_FIELDS : bool := false.
Definition LIMIT : Z := 100.

Record Include := mkInclude {
  customFields : option bool;
  totalCount : option bool;
  statusField : option bool;
  typeField : option bool;
  UUIDFields : option bool;
  customUUIDFields : option bool;
  UUIDStatusField : option bool;
  UUIDTypeField : option bool;
}.

(** An entry of [uuids]: a plain identifier or an object with details. *)
Inductive UUIDEntry :=
| uuid_id (id : string)
| uuid_object (id : string) (status type custom : option string).

Record RequestParameters := mkRequestParameters {
  channel : option string;
  uuids : option (list UUIDEntry);
  include : option Include;
  limit : option Z;
}.

Definition default_include (i : option Include) : Include :=
  let i := Js.nullish i (mkInclude None None None None None None None None) in
  mkInclude
    (Some (Js.nullish (customFields i) INCLUDE_CUSTOM_FIELDS))
    (Some (Js.nullish (totalCount i) INCLUDE_TOTAL_COUNT))
    (Some (Js.nullish (statusField i) INCLUDE_STATUS))
    (Some (Js.nullish (typeField i) INCLUDE_TYPE))
    (Some (Js.nullish (UUIDFields i) INCLUDE_UUID_FIELDS))
    (Some (Js.nullish (customUUIDFields i) INCLUDE_UUID_CUSTOM_FIELDS))
    (Some (Js.nullish (UUIDStatusField i) INCLUDE_UUID_STATUS_FIELD))
    (Some (Js.nullish (UUIDTypeField i) INCLUDE_UUID_TYPE_FIELD)).

(** [new SetChannelMembersRequest(parameters)]: the request keeps the
    parameters with the defaults applied. *)
Definition constructor (parameters : RequestParameters) : RequestParameters :=
  mkRequestParameters (channel parameters) (uuids parameters)
    (Some (default_include (include parameters)))
    (Some (Js.nullish (limit parameters) LIMIT)).

(** [!uuids || uuids.length === 0] *)
Definition missing_or_empty {A} (l : option (list A)) : bool :=
  match l with
  | None => true
  | Some l => (length l =? 0)%nat
  end.

Definition validate (parameters : RequestParameters) : ValidationResult :=
  if negb (Js.truthy (channel parameters))
  then Some "Channel cannot be empty"
  else if missing_or_empty (uuids parameters)
  then Some "UUIDs cannot be empty"
  else None.

End SetChannelMembers.

Module SetUUIDMemberships.

Definition INCLUDE_CUSTOM_FIELDS : bool := false.
Definition INCLUDE_STATUS : bool := false.
Definition INCLUDE_TYPE : bool := false.
Definition INCLUDE_TOTAL_COUNT : bool := false.
Definition INCLUDE_CHANNEL_FIELDS : bool := false.
Definition INCLUDE_CHANNEL_STATUS_FIELD : bool := false.
Definition INCLUDE_CHANNEL_TYPE_FIELD : bool := false.
Definition INCLUDE_CHANNEL_CUSTOM_FIELDS : bool := false.
Definition LIMIT : Z := 100.

Record Include := mkInclude {
  customFields : option bool;
  totalCount : option bool;
  statusField : option bool;
  typeField : option bool;
  channelFields : option bool;
  customChannelFields : option bool;
  channelStatusField : option bool;
  channelTypeField : option bool;
}.

(** An entry of [channels]: a plain name or an object with details. *)
Inductive ChannelEntry :=
| channel_id (id : string)
| channel_object (id : string) (status type custom : option string).

Record RequestParameters := mkRequestParameters {
  uuid : option string;
  userId : option string;
  channels : option (list ChannelEntry);
  include : option Include;
  limit : option Z;
}.

Definition default_include (i : option Include) : Include :=
  let i := Js.nullish i (mkInclude None None None None None None None None) in
  mkInclude
    (Some (Js.nullish (customFields i) INCLUDE_CUSTOM_FIELDS))
    (Some (Js.nullish (totalCount i) INCLUDE_TOTAL_COUNT))
    (Some (Js.nullish (statusField i) INCLUDE_STATUS))
    (Some (Js.nullish (typeField i) INCLUDE_TYPE))
    (Some (Js.nullish (channelFields i) INCLUDE_CHANNEL_FIELDS))
    (Some (Js.nullish (customChannelFields i) INCLUDE_CHANNEL_CUSTOM_FIELDS))
    (Some (Js.nullish (channelStatusField i) INCLUDE_CHANNEL_STATUS_FIELD))
    (Some (Js.nullish (channelTypeField i) INCLUDE_CHANNEL_TYPE_FIELD)).

(** [new SetUUIDMembershipsRequest(parameters)]: the defaults are applied
    and, for backward compatibility, a non-empty [userId] replaces [uuid]. *)
Definition constructor (parameters : RequestParameters) : RequestParameters :=
  mkRequestParameters
    (if Js.truthy (userId parameters)
     then userId parameters
     else uuid parameters)
    (userId parameters)
    (channels parameters)
    (Some (default_include (include parameters)))
    (Some (Js.nullish (limit parameters) LIMIT)).

(** [!channels || channels.length === 0] *)
Definition missing_or_empty {A} (l : option (list A)) : bool :=
  match l with
  | None => true
  | Some l => (length l =? 0)%nat
  end.

Definition validate (parameters : RequestParameters) : ValidationResult :=
  if negb (Js.truthy (uuid parameters))
  then Some "'uuid' cannot be empty"
  else if missing_or_empty (channels parameters)
  then Some "Channels cannot be empty"
  else None.

End SetUUIDMemberships.

(** ** Client configuration defaults *)

Module Configuration.

#[local] Open Scope Q_scope.

Definition USE_SSL : bool := true.
Definition RESTORE : bool := false.
Definition AUTO_NETWORK_DETECTION : bool := false.
Definition DEDUPE_ON_SUBSCRIBE : bool := false.
Definition DEDUPE_CACHE_SIZE : Q := 100.
Definition FILE_PUBLISH_RETRY_LIMIT : Q := 5.
Definition ENABLE_EVENT_ENGINE : bool := false.
Definition MAINTAIN_PRESENCE_STATE : bool := true.
Definition USE_SMART_HEARTBEAT : bool := false.
Definition KEEP_ALIVE : bool := false.
Definition SUPPRESS_LEAVE_EVENTS : bool := false.
Definition ANNOUNCE_HEARTBEAT_FAILURE : bool := true.
Definition ANNOUNCE_HEARTBEAT_SUCCESS : bool := false.
Definition USE_INSTANCE_ID : bool := false.
Definition USE_REQUEST_ID : bool := true.
Definition TRANSACTIONAL_REQUEST_TIMEOUT : Q := 15.
Definition SUBSCRIBE_REQUEST_TIMEOUT : Q := 310.
Definition FILE_REQUEST_TIMEOUT : Q := 300.
Definition PRESENCE_TIMEOUT : Q := 300.
Definition PRESENCE_TIMEOUT_MAXIMUM : Q := 320.

(** [new PubNubError(message)] *)
Record PubNubError := mkPubNubError {
  message : string;
}.

(** A call either returns a value or throws. *)
Inductive Completion (A : Type) :=
| returned (value : A)
| thrown (error : PubNubError).
#[global] Arguments returned {A}.
#[global] Arguments thrown {A}.

(** A value of one of the undocumented legacy options, as far as the
    [typeof] tests tell them apart. *)
Inductive LegacyValue :=
| legacy_boolean (b : bool)
| legacy_number (n : Q)
| legacy_other.

(** [origin] is a host name or a list of host names. *)
Inductive Origin :=
| origin_string (s : string)
| origin_list (l : list string).

(** [!origin]: only the empty string is falsy, an array never is. *)
Definition origin_falsy (o : option Origin) : bool :=
  match o with
  | None => true
  | Some (origin_string s) => negb (Js.truthy (Some s))
  | Some (origin_list _) => false
  end.

Record UserConfiguration := mkUserConfiguration {
  subscribeKey : string;
  publishKey : option string;
  secretKey : option string;
  userId : option string;
  uuid : option string;
  ssl : option bool;
  origin : option Origin;
  presenceTimeout : option Q;
  heartbeatInterval : option Q;
  transactionalRequestTimeout : option Q;
  subscribeRequestTimeout : option Q;
  fileRequestTimeout : option Q;
  restore : option bool;
  useInstanceId : option bool;
  suppressLeaveEvents : option bool;
  requestMessageCountThreshold : option Q;
  autoNetworkDetection : option bool;
  enableEventEngine : option bool;
  maintainPresenceState : option bool;
  useSmartHeartbeat : option bool;
  keepAlive : option bool;
  legacy_dedupeOnSubscribe : option LegacyValue;
  legacy_maximumCacheSize : option LegacyValue;
  legacy_useRequestId : option LegacyValue;
  legacy_announceSuccessfulHeartbeats : option LegacyValue;
  legacy_announceFailedHeartbeats : option LegacyValue;
  legacy_fileUploadPublishRetryLimit : option LegacyValue;
}.

Record KeySet := mkKeySet {
  keySet_subscribeKey : string;
  keySet_publishKey : option string;
  keySet_secretKey : option string;
}.

(** The returned object: the spread of the configuration copy, then the
    properties that override it. *)
Record ExtendedConfiguration := mkExtendedConfiguration {
  configurationCopy : UserConfiguration;
  keySet : KeySet;
  dedupeOnSubscribe : bool;
  maximumCacheSize : Q;
  useRequestId : bool;
  announceSuccessfulHeartbeats : bool;
  announceFailedHeartbeats : bool;
  fileUploadPublishRetryLimit : Q;
}.

(** [value !== undefined && typeof value === 'boolean' ? value : default] *)
Definition legacy_boolean_or (value : option LegacyValue) (default : bool)
    : bool :=
  match value with
  | Some (legacy_boolean b) => b
  | _ => default
  end.

(** [value !== undefined && typeof value === 'number' ? value : default] *)
Definition legacy_number_or (value : option LegacyValue) (default : Q) : Q :=
  match value with
  | Some (legacy_number n) => n
  | _ => default
  end.

(** [Array.from({ length: 20 }, (_, i) => `ps${i + 1}.pndsn.com`)] *)
Definition default_origin : list string :=
  map (λ i : nat,
         ("ps" ++ Js.number_to_string (Z.of_nat i + 1) ++ ".pndsn.com")%string)
    (seq 0 20).

(** The presence timeout after the range check, with the warning the check
    prints to the console, if any. *)
Definition checked_presenceTimeout (presenceTimeout : option Q)
    : option Q * list string :=
  match presenceTimeout with
  | None => (None, [])
  | Some timeout =>
      if negb (Qle_bool timeout PRESENCE_TIMEOUT_MAXIMUM)
      then (Some PRESENCE_TIMEOUT_MAXIMUM,
            ["WARNING: Presence timeout is larger than the maximum. Using maximum value: "%string])
      else if Qle_bool timeout 0
      then (None,
            ["WARNING: Presence timeout should be larger than zero."%string])
      else (Some timeout, [])
  end.

(** [setDefaults(configuration)]: the extended configuration together with
    the console warnings, or the error thrown. *)
Definition setDefaults (configuration : UserConfiguration)
    : Completion (ExtendedConfiguration * list string) :=
  let ssl := Js.nullish (ssl configuration) USE_SSL in
  let transactionalRequestTimeout :=
    Js.nullish (transactionalRequestTimeout configuration)
      TRANSACTIONAL_REQUEST_TIMEOUT in
  let subscribeRequestTimeout :=
    Js.nullish (subscribeRequestTimeout configuration)
      SUBSCRIBE_REQUEST_TIMEOUT in
  let fileRequestTimeout :=
    Js.nullish (fileRequestTimeout configuration) FILE_REQUEST_TIMEOUT in
  let restore := Js.nullish (restore configuration) RESTORE in
  let useInstanceId :=
    Js.nullish (useInstanceId configuration) USE_INSTANCE_ID in
  let suppressLeaveEvents :=
    Js.nullish (suppressLeaveEvents configuration) SUPPRESS_LEAVE_EVENTS in
  let requestMessageCountThreshold :=
    Js.nullish (requestMessageCountThreshold configuration)
      DEDUPE_CACHE_SIZE in
  let autoNetworkDetection :=
    Js.nullish (autoNetworkDetection configuration) AUTO_NETWORK_DETECTION in
  let enableEventEngine :=
    Js.nullish (enableEventEngine configuration) ENABLE_EVENT_ENGINE in
  let maintainPresenceState :=
    Js.nullish (maintainPresenceState configuration)
      MAINTAIN_PRESENCE_STATE in
  let useSmartHeartbeat :=
    Js.nullish (useSmartHeartbeat configuration) USE_SMART_HEARTBEAT in
  let keepAlive := Js.nullish (keepAlive configuration) KEEP_ALIVE in
  if Js.truthy (userId configuration) && Js.truthy (uuid configuration)
  then thrown (mkPubNubError
                 "PubNub client configuration error: use only 'userId'")
  else
  let userId := Js.nullish_assign (userId configuration) (uuid configuration) in
  if negb (Js.truthy userId)
  then thrown (mkPubNubError
                 "PubNub client configuration error: 'userId' not set")
  else if (String.length (Js.trim (Js.nullish userId "")) =? 0)%nat
  then thrown (mkPubNubError
                 "PubNub client configuration error: 'userId' is empty")
  else
  let origin :=
    if origin_falsy (origin configuration)
    then Some (origin_list default_origin)
    else origin configuration in
  let keySet :=
    mkKeySet (subscribeKey configuration) (publishKey configuration)
      (secretKey configuration) in
  let '(presenceTimeout, warnings) :=
    checked_presenceTimeout (presenceTimeout configuration) in
  let heartbeatInterval :=
    match presenceTimeout with
    | Some timeout => Some (timeout / 2 - 1)
    | None => heartbeatInterval configuration
    end in
  let presenceTimeout := Js.nullish presenceTimeout PRESENCE_TIMEOUT in
  returned
    (mkExtendedConfiguration
       (mkUserConfiguration
          (subscribeKey configuration) (publishKey configuration)
          (secretKey configuration) userId (uuid configuration)
          (Some ssl) origin (Some presenceTimeout) heartbeatInterval
          (Some transactionalRequestTimeout) (Some subscribeRequestTimeout)
          (Some fileRequestTimeout) (Some restore) (Some useInstanceId)
          (Some suppressLeaveEvents) (Some requestMessageCountThreshold)
          (Some autoNetworkDetection) (Some enableEventEngine)
          (Some maintainPresenceState) (Some useSmartHeartbeat)
          (Some keepAlive)
          (legacy_dedupeOnSubscribe configuration)
          (legacy_maximumCacheSize configuration)
          (legacy_useRequestId configuration)
          (legacy_announceSuccessfulHeartbeats configuration)
          (legacy_announceFailedHeartbeats configuration)
          (legacy_fileUploadPublishRetryLimit configuration))
       keySet
       (legacy_boolean_or (legacy_dedupeOnSubscribe configuration)
          DEDUPE_ON_SUBSCRIBE)
       (legacy_number_or (legacy_maximumCacheSize configuration)
          DEDUPE_CACHE_SIZE)
       (legacy_boolean_or (legacy_useRequestId configuration) USE_REQUEST_ID)
       (legacy_boolean_or (legacy_announceSuccessfulHeartbeats configuration)
          ANNOUNCE_HEARTBEAT_SUCCESS)
       (legacy_boolean_or (legacy_announceFailedHeartbeats configuration)
          ANNOUNCE_HEARTBEAT_FAILURE)
       (legacy_number_or (legacy_fileUploadPublishRetryLimit configuration)
          FILE_PUBLISH_RETRY_LIMIT),
     warnings).

(** A configuration that sets the keys and the two identifiers only, as the
    test suites build one. *)
Definition example_configuration (userId uuid : option string)
    : UserConfiguration :=
  mkUserConfiguration "mySubKey" (Some "myPublishKey") None userId uuid
    None None None None None None None None None None None None None None
    None None None None None None None None.

End Configuration.


(** ** Message actions: parameter validation *)

Module AddMessageAction.

(** The [action] parameter, [{ type, value }]. *)
Record Action := mkAction {
  type : option string;
  value : option string;
}.

Record RequestParameters := mkRequestParameters {
  subscribeKey : option string;
  action : option Action;
  channel : option string;
  messageTimetoken : option string;
}.

(** [action.type.length > 15] *)
Definition type_too_long (action : Action) : bool :=
  (15 <? String.length (Js.nullish (type action) ""))%nat.

Definition validate (parameters : RequestParameters) : ValidationResult :=
  if negb (Js.truthy (subscribeKey parameters))
  then Some "Missing Subscribe Key"
  else if negb (Js.truthy (channel parameters))
  then Some "Missing message channel"
  else if negb (Js.truthy (messageTimetoken parameters))
  then Some "Missing message timetoken"
  else
    match action parameters with
    | None => Some "Missing Action"
    | Some action =>
        if negb (Js.truthy (value action))
        then Some "Missing Action.value"
        else if negb (Js.truthy (type action))
        then Some "Missing Action.type"
        else if type_too_long action
        then Some "Action.type value exceed maximum length of 15"
        else None
    end.

End AddMessageAction.

(** ** App Context requests: query parameters *)

(** The query of a request: an object whose values are strings, numbers or
    lists of strings, with its properties in insertion order. *)
Module Query.

Inductive Value :=
| string_value (s : string)
| number_value (n : Z)
| list_value (l : list string).

#[global] Instance Value_eq_dec : EqDecision Value.
Proof. solve_decision. Defined.

Definition Query : Type := list (string * Value).

(** The keys of the object. *)
Definition keys (q : Query) : list string := map fst q.

(** [query[key]] *)
Fixpoint get (q : Query) (key : string) : option Value :=
  match q with
  | [] => None
  | (k, v) :: q' => if String.eqb k key then Some v else get q' key
  end.

(** [{ ...(condition ? { [key]: value } : {}) }] *)
Definition entry_if (condition : bool) (key : string) (value : Value)
    : Query :=
  if condition then [(key, value)] else [].

(** [page]: the cursors of the neighbouring pages. *)
Record Page := mkPage {
  next : option string;
  prev : option string;
}.

Inductive SortOrder :=
| asc
| desc.

(** [sort] is a string or an object that maps a field to ['asc'], ['desc']
    or [null]; the object is given by its entries in enumeration order. *)
Inductive Sort :=
| sort_string (s : string)
| sort_object (entries : list (string * option SortOrder)).

(** [string | string[]] *)
Inductive Sorting :=
| sorting_string (s : string)
| sorting_list (l : list string).

(** [`${order}`] *)
Definition order_to_string (order : SortOrder) : string :=
  match order with
  | asc => "asc"
  | desc => "desc"
  end.

(** [([option, order]) => (order !== null ? `${option}:${order}` : option)] *)
Definition sort_entry (entry : string * option SortOrder) : string :=
  match entry.2 with
  | Some order => entry.1 ++ ":" ++ order_to_string order
  | None => entry.1
  end.

(** The local [sorting]: the string as given, or the mapped entries of
    [sort ?? {}]. *)
Definition sorting (sort : option Sort) : Sorting :=
  match sort with
  | Some (sort_string s) => sorting_string s
  | Some (sort_object entries) => sorting_list (map sort_entry entries)
  | None => sorting_list []
  end.

(** [sorting.length] *)
Definition sorting_length (s : Sorting) : nat :=
  match s with
  | sorting_string s => String.length s
  | sorting_list l => length l
  end.

Definition sorting_value (s : Sorting) : Value :=
  match s with
  | sorting_string s => string_value s
  | sorting_list l => list_value l
  end.

(** [`${flag}`] for an optional boolean. *)
Definition boolean_to_string (b : option bool) : string :=
  match b with
  | Some true => "true"
  | Some false => "false"
  | None => "undefined"
  end.

(** [if (flag) includeFlags.push(name)] *)
Definition push_if (flag : option bool) (name : string)
    (includeFlags : list string) : list string :=
  if Js.truthy_bool flag then includeFlags ++ [name] else includeFlags.

(** The part of the query both requests build alike from [filter], [page],
    [limit] and [sorting]. *)
Definition paging (filter : option string) (page : option Page)
    (limit : option Z) (sorting : Sorting) : Query :=
  entry_if (Js.truthy filter) "filter" (string_value (Js.nullish filter ""))
  ++ entry_if (Js.truthy (page ≫= next)) "start"
       (string_value (Js.nullish (page ≫= next) ""))
  ++ entry_if (Js.truthy (page ≫= prev)) "end"
       (string_value (Js.nullish (page ≫= prev) ""))
  ++ entry_if (negb (Js.nullish limit 0 =? 0)%Z) "limit"
       (number_value (Js.nullish limit 0))
  ++ entry_if (negb (sorting_length sorting =? 0)%nat) "sort"
       (sorting_value sorting).

End Query.

Module SetChannelMembersQuery.
Import SetChannelMembers.

(** The parameters [queryParameters] reads beside those of
    [SetChannelMembers.RequestParameters]. *)
Record Parameters := mkParameters {
  request : RequestParameters;
  page : option Query.Page;
  filter : option string;
  sort : option Query.Sort;
}.

(** [new SetChannelMembersRequest(parameters)] on the full parameters. *)
Definition constructor (parameters : Parameters) : Parameters :=
  mkParameters (SetChannelMembers.constructor (request parameters))
    (page parameters) (filter parameters) (sort parameters).

(** The local [includeFlags] after the pushes. *)
Definition includeFlags (include : Include) : list string :=
  Query.push_if (customUUIDFields include) "uuid.custom"
    (Query.push_if (UUIDTypeField include) "uuid.type"
       (Query.push_if (UUIDStatusField include) "uuid.status"
          (Query.push_if (UUIDFields include) "uuid"
             (Query.push_if (customFields include) "custom"
                (Query.push_if (typeField include) "type"
                   (Query.push_if (statusField include) "status"
                      ["uuid.status"; "uuid.type"; "type"])))))).

(** The getter [queryParameters]; [None] stands for the [TypeError] that
    reading a property of an [undefined] [include] throws. *)
Definition queryParameters (parameters : Parameters) : option Query.Query :=
  match include (request parameters) with
  | None => None
  | Some include =>
      let sorting := Query.sorting (sort parameters) in
      let includeFlags := includeFlags include in
      Some
        ([("count",
           Query.string_value (Query.boolean_to_string (totalCount include)))]
         ++ Query.entry_if (0 <? length includeFlags)%nat "include"
              (Query.string_value (String.concat "," includeFlags))
         ++ Query.paging (filter parameters) (page parameters)
              (limit (request parameters)) sorting)
  end.

End SetChannelMembersQuery.

Module SetUUIDMembershipsQuery.
Import SetUUIDMemberships.

(** The parameters [queryParameters] reads beside those of
    [SetUUIDMemberships.RequestParameters]. *)
Record Parameters := mkParameters {
  request : RequestParameters;
  page : option Query.Page;
  filter : option string;
  sort : option Query.Sort;
}.

(** [new SetUUIDMembershipsRequest(parameters)] on the full parameters. *)
Definition constructor (parameters : Parameters) : Parameters :=
  mkParameters (SetUUIDMemberships.constructor (request parameters))
    (page parameters) (filter parameters) (sort parameters).

(** The local [includeFlags] after the pushes. *)
Definition includeFlags (include : Include) : list string :=
  Query.push_if (customChannelFields include) "channel.custom"
    (Query.push_if (channelTypeField include) "channel.type"
       (Query.push_if (channelStatusField include) "channel.status"
          (Query.push_if (channelFields include) "channel"
             (Query.push_if (customFields include) "custom"
                (Query.push_if (typeField include) "type"
                   (Query.push_if (statusField include) "status"
                      ["channel.status"; "channel.type"; "status"])))))).

(** The getter [queryParameters]; [None] stands for the [TypeError] that
    reading a property of an [undefined] [include] throws. *)
Definition queryParameters (parameters : Parameters) : option Query.Query :=
  match include (request parameters) with
  | None => None
  | Some include =>
      let sorting := Query.sorting (sort parameters) in
      let includeFlags := includeFlags include in
      Some
        ([("count",
           Query.string_value (Query.boolean_to_string (totalCount include)))]
         ++ Query.entry_if (0 <? length includeFlags)%nat "include"
              (Query.string_value (String.concat "," includeFlags))
         ++ Query.paging (filter parameters) (page parameters)
              (limit (request parameters)) sorting)
  end.

End SetUUIDMembershipsQuery.

(** ** Client configuration defaults: the browser platform *)

Module WebConfiguration.
Import Configuration.

#[local] Open Scope Q_scope.

Inductive Transport :=
| fetch
| xhr.

Definition LISTEN_TO_BROWSER_NETWORK_EVENTS : bool := true.
Definition SUBSCRIPTION_WORKER_LOG_VERBOSITY : bool := false.
Definition SUBSCRIPTION_WORKER_OFFLINE_CLIENTS_CHECK_INTERVAL : Q := 10.
Definition SUBSCRIPTION_WORKER_UNSUBSCRIBE_OFFLINE_CLIENTS : bool := false.
Definition TRANSPORT : Transport := fetch.
Definition KEEP_ALIVE : bool := true.

(** [string | null | undefined]: [None] is [undefined], [Some None] is
    [null]. *)
Definition WorkerUrl : Type := option (option string).

(** [!!url]: only a non-empty string is truthy. *)
Definition url_truthy (url : WorkerUrl) : bool :=
  match url with
  | Some url => Js.truthy url
  | None => false
  end.

(** The browser configuration: the user configuration of the core and the
    options of the platform.  [keepAlive] is the property of the user
    configuration. *)
Record PubNubConfiguration := mkPubNubConfiguration {
  userConfiguration : UserConfiguration;
  listenToBrowserNetworkEvents : option bool;
  subscriptionWorkerUrl : WorkerUrl;
  subscriptionWorkerOfflineClientsCheckInterval : option Q;
  subscriptionWorkerUnsubscribeOfflineClients : option bool;
  subscriptionWorkerLogVerbosity : option bool;
  transport : option Transport;
}.

(** The returned object: the spread of the base defaults, with [keepAlive]
    overridden in it, and the platform options. *)
Record Defaults := mkDefaults {
  base : ExtendedConfiguration;
  default_listenToBrowserNetworkEvents : bool;
  default_subscriptionWorkerUrl : WorkerUrl;
  default_subscriptionWorkerOfflineClientsCheckInterval : Q;
  default_subscriptionWorkerUnsubscribeOfflineClients : bool;
  default_subscriptionWorkerLogVerbosity : bool;
  default_transport : Transport;
}.

(** [{ ...base, keepAlive }]: a property listed after the spread replaces
    the one of the spread. *)
Definition override_keepAlive (e : ExtendedConfiguration) (value : bool)
    : ExtendedConfiguration :=
  let c := configurationCopy e in
  mkExtendedConfiguration
    (mkUserConfiguration
       (subscribeKey c) (publishKey c) (secretKey c) (userId c) (uuid c)
       (ssl c) (origin c) (presenceTimeout c) (heartbeatInterval c)
       (transactionalRequestTimeout c) (subscribeRequestTimeout c)
       (fileRequestTimeout c) (restore c) (useInstanceId c)
       (suppressLeaveEvents c) (requestMessageCountThreshold c)
       (autoNetworkDetection c) (enableEventEngine c)
       (maintainPresenceState c) (useSmartHeartbeat c)
       (Some value)
       (legacy_dedupeOnSubscribe c) (legacy_maximumCacheSize c)
       (legacy_useRequestId c) (legacy_announceSuccessfulHeartbeats c)
       (legacy_announceFailedHeartbeats c)
       (legacy_fileUploadPublishRetryLimit c))
    (keySet e) (dedupeOnSubscribe e) (maximumCacheSize e) (useRequestId e)
    (announceSuccessfulHeartbeats e) (announceFailedHeartbeats e)
    (fileUploadPublishRetryLimit e).

(** The first statement of [setDefaults]: where shared workers are not
    supported a worker URL is reset to [null], in the caller's object. *)
Definition disable_worker (SharedWorker_defined : bool)
    (configuration : PubNubConfiguration) : PubNubConfiguration :=
  if url_truthy (subscriptionWorkerUrl configuration)
     && negb SharedWorker_defined
  then mkPubNubConfiguration
         (userConfiguration configuration)
         (listenToBrowserNetworkEvents configuration)
         (Some None)
         (subscriptionWorkerOfflineClientsCheckInterval configuration)
         (subscriptionWorkerUnsubscribeOfflineClients configuration)
         (subscriptionWorkerLogVerbosity configuration)
         (transport configuration)
  else configuration.

(** [setDefaults(configuration)] of the browser platform, where
    [SharedWorker_defined] tells whether [typeof SharedWorker] is not
    ['undefined'].  The result is the caller's configuration object as the
    call leaves it, and the defaults with the console warnings of the base
    or the error the base throws. *)
Definition setDefaults (SharedWorker_defined : bool)
    (configuration : PubNubConfiguration)
    : PubNubConfiguration * Completion (Defaults * list string) :=
  let configuration := disable_worker SharedWorker_defined configuration in
  (configuration,
   match Configuration.setDefaults (userConfiguration configuration) with
   | thrown error => thrown error
   | returned (extended, warnings) =>
       returned
         (mkDefaults
            (override_keepAlive extended
               (Js.nullish (keepAlive (userConfiguration configuration))
                  KEEP_ALIVE))
            (Js.nullish (listenToBrowserNetworkEvents configuration)
               LISTEN_TO_BROWSER_NETWORK_EVENTS)
            (subscriptionWorkerUrl configuration)
            (Js.nullish
               (subscriptionWorkerOfflineClientsCheckInterval configuration)
               SUBSCRIPTION_WORKER_OFFLINE_CLIENTS_CHECK_INTERVAL)
            (Js.nullish
               (subscriptionWorkerUnsubscribeOfflineClients configuration)
               SUBSCRIPTION_WORKER_UNSUBSCRIBE_OFFLINE_CLIENTS)
            (Js.nullish (subscriptionWorkerLogVerbosity configuration)
               SUBSCRIPTION_WORKER_LOG_VERBOSITY)
            (Js.nullish (transport configuration) TRANSPORT),
          warnings)
   end).

(** A browser configuration that sets the keys, the identifier, the worker
    URL and [keepAlive] only. *)
Definition example_configuration (url : WorkerUrl) (keepAlive : option bool)
    : PubNubConfiguration :=
  mkPubNubConfiguration
    (mkUserConfiguration "mySubKey" (Some "myPublishKey") None
       (Some "myUUID") None
       None None None None None None None None None None None None None None
       None keepAlive None None None None None None)
    None url None None None None.

End WebConfiguration.

(** Example configurations for the presence timeout and the origin. *)
Module ConfigurationExamples.
Import Configuration.


(** A configuration that sets the keys, the identifier and the origin
    only. *)
Definition origin_configuration (origin : option Origin)
    : UserConfiguration :=
  mkUserConfiguration "mySubKey" (Some "myPublishKey") None
    (Some "myUUID") None
    None origin None None
    None None None None None None None None None None None None
    None None None None None None.

End ConfigurationExamples.

(** * Properties *)

(** ** The engine core *)

Module CoreFacts.
Section Facts.

Context {Label EventType Effect : Type} `{EqDecision EventType}.
Context {contextOf : Label → Type} {payloadOf : EventType → Type}.

Abbreviation State := (@Core.State Label EventType Effect contextOf payloadOf).
Abbreviation Event := (Core.Event payloadOf).
Abbreviation Engine := (Core.Engine contextOf).
Abbreviation Transition := (@Core.Transition Label Effect contextOf).

Lemma transitionMap_on_eq {S} (t : EventType)
    (f : Core.TransitionFunction contextOf payloadOf S t) (st : State S) :
  Core.transitionMap (Core.on t f st) t = Some f.
Proof.
  cbn. destruct (decide (t = t)) as [e|]; [|done].
  by rewrite (proof_irrel e eq_refl).
Qed.

Lemma transitionMap_on_ne {S} (t t' : EventType)
    (f : Core.TransitionFunction contextOf payloadOf S t) (st : State S) :
  t ≠ t' → Core.transitionMap (Core.on t f st) t' = Core.transitionMap st t'.
Proof. intros Hne. cbn. by destruct (decide (t = t')). Qed.

Lemma transition_None {S} (st : State S) (context : S) (event : Event) :
  Core.transitionMap st (Core.type event) = None →
  Core.transition st context event = None.
Proof. unfold Core.transition. by intros ->. Qed.

Lemma process_None (states : ∀ l, State (contextOf l))
    (engine : Engine) (event : Event) :
  Core.transition (states (Core.currentState engine))
    (Core.currentContext engine) event = None →
  Core.process states engine event = (engine, []).
Proof. unfold Core.process. by intros ->. Qed.

Lemma process_Some (states : ∀ l, State (contextOf l))
    (engine : Engine) (event : Event) (tr : Transition) :
  Core.transition (states (Core.currentState engine))
    (Core.currentContext engine) event = Some tr →
  Core.process states engine event
  = (Core.mkEngine contextOf (Core.target tr) (Core.targetContext tr),
     map (λ effect, effect (Core.currentContext engine))
       (Core.exitEffects (states (Core.currentState engine)))
     ++ Core.effects tr
     ++ map (λ effect, effect (Core.targetContext tr))
          (Core.enterEffects (states (Core.target tr)))).
Proof. unfold Core.process. by intros ->. Qed.

End Facts.
End CoreFacts.

(** ** The [UNSUBSCRIBED] state *)

Module SubscriptionFacts.
Import Subscription.

Lemma is_empty_nil (l : list string) : is_empty l = true ↔ l = [].
Proof. destruct l; cbn; split; done. Qed.

Lemma both_empty (channels groups : list string) :
  is_empty channels && is_empty groups = true ↔ channels = [] ∧ groups = [].
Proof. rewrite andb_true_iff, !is_empty_nil. done. Qed.

Lemma not_both_empty (channels groups : list string) :
  is_empty channels && is_empty groups = false ↔ channels ≠ [] ∨ groups ≠ [].
Proof.
  rewrite andb_false_iff.
  assert (∀ l : list string, is_empty l = false ↔ l ≠ []) as Hne
    by (intros [|]; cbn; split; done).
  by rewrite !Hne.
Qed.

(** The event types the [UNSUBSCRIBED] state has a transition for. *)
Lemma UnsubscribedState_transitionMap {Effect} (t : EventType) :
  t ≠ subscriptionChange_type → t ≠ restore_type →
  Core.transitionMap (@UnsubscribedState Effect) t = None.
Proof. intros H1 H2. destruct t; done. Qed.

Lemma transition_subscriptionChange {Effect} (channels groups : list string) :
  Core.transition (@UnsubscribedState Effect) tt
    (subscriptionChange channels groups)
  = Some (on_subscriptionChange tt
            (mkSubscriptionChangePayload channels groups)).
Proof. reflexivity. Qed.


Section Claims.

Context {Effect : Type}.
Variables HandshakingState HandshakeFailedState HandshakeStoppedState
  ReceivingState ReceiveFailedState ReceiveStoppedState
  : @Core.State Label EventType Effect contextOf payloadOf Context.

Abbreviation engine_states :=
  (states HandshakingState HandshakeFailedState HandshakeStoppedState
     ReceivingState ReceiveFailedState ReceiveStoppedState).

(** C1: in the [UNSUBSCRIBED] state a [subscriptionChange] event whose
    channels and groups are both empty keeps the engine in [UNSUBSCRIBED]
    with the empty ([undefined]) context; when at least one of the two lists
    is non-empty the transition targets [HANDSHAKING] with exactly the
    payload's channels and groups (and no cursor), and the engine moves
    there. *)
Theorem C1_unsubscribed_subscriptionChange (channels groups : list string) :
  let event := subscriptionChange channels groups in
  let engine := Core.mkEngine contextOf UNSUBSCRIBED tt in
  (channels = [] ∧ groups = [] →
     Core.transition (@UnsubscribedState Effect) tt event
     = Some (Core.mkTransition contextOf UNSUBSCRIBED tt [])
     ∧ (Core.process engine_states engine event).1
       = Core.mkEngine contextOf UNSUBSCRIBED tt)
  ∧ (channels ≠ [] ∨ groups ≠ [] →
     Core.transition (@UnsubscribedState Effect) tt event
     = Some (Core.mkTransition contextOf HANDSHAKING
               (mkContext channels groups None) [])
     ∧ (Core.process engine_states engine event).1
       = Core.mkEngine contextOf HANDSHAKING
           (mkContext channels groups None)).
Proof.
  intros event engine. split.
  - intros [-> ->]. split; reflexivity.
  - intros Hne%not_both_empty.
    assert (Core.transition (@UnsubscribedState Effect) tt event
            = Some (Core.mkTransition contextOf HANDSHAKING
                      (mkContext channels groups None) [])) as Htr.
    { unfold event. rewrite transition_subscriptionChange.
      unfold on_subscriptionChange.
      cbn [change_channels change_groups]. by rewrite Hne. }
    split; [exact Htr|].
    by rewrite (CoreFacts.process_Some engine_states engine event _ Htr).
Qed.


(** C5: for every state and every event whose type has no entry in the
    state's transition map, processing the event returns the engine as it
    was (same state, same context) and invokes no effect; and in the
    [UNSUBSCRIBED] state every event whose type is neither
    [subscriptionChange] nor [restore] is such an event. *)
Theorem C5_no_transition_is_noop :
  (∀ (L T E : Type) (HT : EqDecision T) (ctx : L → Type) (pl : T → Type)
     (table : ∀ l, @Core.State L T E ctx pl (ctx l))
     (engine : Core.Engine ctx) (event : Core.Event pl),
     Core.transitionMap (table (Core.currentState engine)) (Core.type event)
     = None →
     Core.process table engine event = (engine, []))
  ∧ (∀ event : Event,
       Core.type event ≠ subscriptionChange_type →
       Core.type event ≠ restore_type →
       Core.transitionMap (@UnsubscribedState Effect) (Core.type event) = None
       ∧ Core.process engine_states (Core.mkEngine contextOf UNSUBSCRIBED tt)
           event
         = (Core.mkEngine contextOf UNSUBSCRIBED tt, [])).
Proof.
  split.
  - intros L T E HT ctx pl table engine event Hnone.
    by apply CoreFacts.process_None, CoreFacts.transition_None.
  - intros event H1 H2.
    pose proof (UnsubscribedState_transitionMap (Effect := Effect) _ H1 H2)
      as Hnone.
    split; [exact Hnone|].
    by apply CoreFacts.process_None, CoreFacts.transition_None.
Qed.

End Claims.

Lemma C1_unsubscribed_subscriptionChange_witness :
  (Core.transition (@UnsubscribedState unit) tt (subscriptionChange [] [])
   = Some (Core.mkTransition contextOf UNSUBSCRIBED tt []))
  ∧ (Core.transition (@UnsubscribedState unit) tt
       (subscriptionChange ["room1"] [])
     = Some (Core.mkTransition contextOf HANDSHAKING
               (mkContext ["room1"] [] None) [])).
Proof.
  split.
  - apply (C1_unsubscribed_subscriptionChange placeholder_state
             placeholder_state placeholder_state placeholder_state
             placeholder_state placeholder_state [] []).
    split; reflexivity.
  - apply (C1_unsubscribed_subscriptionChange placeholder_state
             placeholder_state placeholder_state placeholder_state
             placeholder_state placeholder_state ["room1"] []).
    left. discriminate.
Defined.


Lemma C5_no_transition_is_noop_witness :
  Core.process
    (states placeholder_state placeholder_state placeholder_state
       placeholder_state placeholder_state placeholder_state)
    (Core.mkEngine contextOf UNSUBSCRIBED tt)
    (Core.mkEvent payloadOf disconnect_type tt)
  = (Core.mkEngine contextOf UNSUBSCRIBED tt, []).
Proof.
  apply (proj2 (C5_no_transition_is_noop placeholder_state
             placeholder_state placeholder_state placeholder_state
             placeholder_state placeholder_state)
          (Core.mkEvent payloadOf disconnect_type tt)); discriminate.
Defined.

End SubscriptionFacts.

(** ** The [HEARTBEAT_COOLDOWN] state *)

Module PresenceFacts.
Import Presence.

(** *** Channel and group lists *)

Lemma elem_of_append_missing (context added : list string) (x : string) :
  x ∈ append_missing context added ↔ x ∈ context ∨ x ∈ added.
Proof.
  unfold append_missing. rewrite elem_of_app, list_elem_of_filter.
  destruct (decide (x ∈ context)); tauto.
Qed.

Lemma elem_of_without (context removed : list string) (x : string) :
  x ∈ without context removed ↔ x ∈ context ∧ x ∉ removed.
Proof. unfold without. rewrite list_elem_of_filter. tauto. Qed.

Lemma NoDup_append_missing (context added : list string) :
  NoDup context → NoDup added → NoDup (append_missing context added).
Proof.
  intros Hcontext Hadded. unfold append_missing. apply NoDup_app.
  split; [done|]. split.
  - intros x Hx [Hnot _]%list_elem_of_filter. done.
  - by apply NoDup_filter.
Qed.

Lemma NoDup_without (context removed : list string) :
  NoDup context → NoDup (without context removed).
Proof. intros Hcontext. by apply NoDup_filter. Qed.

Lemma append_missing_present (context added : list string) :
  (∀ x, x ∈ added → x ∈ context) → append_missing context added = context.
Proof.
  intros Hsub. unfold append_missing.
  replace (filter (λ x, x ∉ context) added) with (@nil string).
  - by rewrite app_nil_r.
  - symmetry. induction added as [|a added IH]; [done|].
    rewrite filter_cons. destruct (decide (a ∉ context)) as [Hnot|_].
    + exfalso. apply Hnot, Hsub. left.
    + apply IH. intros x Hx. apply Hsub. by right.
Qed.

(** *** Transitions of the state *)

Lemma transition_timesUp (context : Context) :
  Core.transition HeartbeatCooldownState context timesUp
  = Some (on_timesUp context tt).
Proof. reflexivity. Qed.

Lemma transition_joined (context : Context) (channels groups : list string) :
  Core.transition HeartbeatCooldownState context (joined channels groups)
  = Some (on_joined context (mkMembersPayload channels groups)).
Proof. reflexivity. Qed.

Lemma transition_left (context : Context) (channels groups : list string) :
  Core.transition HeartbeatCooldownState context (left channels groups)
  = Some (on_left context (mkMembersPayload channels groups)).
Proof. reflexivity. Qed.

Lemma transition_disconnect (context : Context) (offline : option bool) :
  Core.transition HeartbeatCooldownState context (disconnect offline)
  = Some (on_disconnect context (mkOfflinePayload offline)).
Proof. reflexivity. Qed.

Lemma transition_leftAll (context : Context) (offline : option bool) :
  Core.transition HeartbeatCooldownState context (leftAll offline)
  = Some (on_leftAll context (mkOfflinePayload offline)).
Proof. reflexivity. Qed.

Lemma enterEffects_cooldown :
  Core.enterEffects HeartbeatCooldownState = [λ _, wait].
Proof. reflexivity. Qed.

Lemma exitEffects_cooldown :
  Core.exitEffects HeartbeatCooldownState = [λ _, wait_cancel].
Proof. reflexivity. Qed.

(** *** The dispatcher's timer channel *)

(** Once a timer handle is no longer the active one it never becomes active
    again: later handles are fresh. *)
Lemma dispatch_all_stale (invocations : list Effect) (d : Dispatcher)
    (h : nat) :
  (h < next_handle d)%nat → active_wait d ≠ Some h →
  active_wait (dispatch_all d invocations) ≠ Some h.
Proof.
  revert d. induction invocations as [|invocation rest IH]; intros d Hlt Hne.
  - exact Hne.
  - cbn. apply IH.
    + destruct invocation; cbn; lia.
    + destruct invocation; cbn; try done. intros [= Heq]. lia.
Qed.

Lemma timer_fired_stale (d : Dispatcher) (h : nat) :
  active_wait d ≠ Some h → timer_fired d h = None.
Proof.
  unfold timer_fired. destruct (active_wait d) as [h'|]; [|done].
  intros Hne. destruct (decide (h' = h)) as [->|]; done.
Qed.

Section Claims.

Variable HeartbeatInactiveState : State unit.
Variables HeartbeatingState HeartbeatFailedState HeartbeatStoppedState
  : State Context.

Abbreviation engine_states :=
  (states HeartbeatInactiveState HeartbeatingState HeartbeatFailedState
     HeartbeatStoppedState).

(** Processing an event the cooldown state has a transition for: the engine
    moves to the target, and the effects invoked are the cancellation of the
    timer, the effects of the transition and the enter effects of the
    target. *)
Lemma process_cooldown (context : Context) (event : Event) (tr : Transition) :
  Core.transition HeartbeatCooldownState context event = Some tr →
  Core.process engine_states
    (Core.mkEngine contextOf HEARTBEAT_COOLDOWN context) event
  = (Core.mkEngine contextOf (Core.target tr) (Core.targetContext tr),
     wait_cancel :: Core.effects tr
     ++ map (λ effect, effect (Core.targetContext tr))
          (Core.enterEffects (engine_states (Core.target tr)))).
Proof.
  intros Htr.
  by rewrite (CoreFacts.process_Some engine_states
                (Core.mkEngine contextOf HEARTBEAT_COOLDOWN context)
                event tr Htr).
Qed.

(** C2 (as amended): in the [HEARTBEAT_COOLDOWN] state a [joined] event
    targets [HEARTBEATING] with the union of the context's and the payload's
    channels and groups, and a [left] event targets [HEARTBEATING] with the
    context's channels and groups minus the payload's; the engine moves at
    once, cancelling the cooldown timer first; and the [left] transition
    always carries one [leave] effect for the channels and groups named in
    the payload, which is what the specification describes for leave events
    that are not suppressed: the transition does not consult that
    setting. *)
Theorem C2_cooldown_joined_left (context : Context) (chs grs : list string) :
  let engine := Core.mkEngine contextOf HEARTBEAT_COOLDOWN context in
  let joined_context :=
    mkContext (append_missing (channels context) chs)
      (append_missing (groups context) grs) in
  let left_context :=
    mkContext (without (channels context) chs)
      (without (groups context) grs) in
  (Core.transition HeartbeatCooldownState context (joined chs grs)
   = Some (Core.mkTransition contextOf HEARTBEATING joined_context [])
   ∧ (∀ x, x ∈ channels joined_context ↔ x ∈ channels context ∨ x ∈ chs)
   ∧ (∀ x, x ∈ groups joined_context ↔ x ∈ groups context ∨ x ∈ grs)
   ∧ (Core.process engine_states engine (joined chs grs)).1
     = Core.mkEngine contextOf HEARTBEATING joined_context
   ∧ ∃ rest, (Core.process engine_states engine (joined chs grs)).2
             = wait_cancel :: rest)
  ∧ (Core.transition HeartbeatCooldownState context (left chs grs)
     = Some (Core.mkTransition contextOf HEARTBEATING left_context
               [leave chs grs])
     ∧ (∀ x, x ∈ channels left_context ↔ x ∈ channels context ∧ x ∉ chs)
     ∧ (∀ x, x ∈ groups left_context ↔ x ∈ groups context ∧ x ∉ grs)
     ∧ (Core.process engine_states engine (left chs grs)).1
       = Core.mkEngine contextOf HEARTBEATING left_context
     ∧ (∃ rest, (Core.process engine_states engine (left chs grs)).2
                = wait_cancel :: leave chs grs :: rest)
     ∧ [leave chs grs]
       = spec_left_effects false (mkMembersPayload chs grs)).
Proof.
  intros engine joined_context left_context. split.
  - split; [reflexivity|].
    split; [intros x; apply elem_of_append_missing|].
    split; [intros x; apply elem_of_append_missing|].
    unfold engine.
    rewrite (process_cooldown context _ _ (transition_joined context chs grs)).
    split; [reflexivity|]. by eexists.
  - split; [reflexivity|].
    split; [intros x; apply elem_of_without|].
    split; [intros x; apply elem_of_without|].
    unfold engine.
    rewrite (process_cooldown context _ _ (transition_left context chs grs)).
    split; [reflexivity|]. split; [by eexists|reflexivity].
Qed.

(** C3: in the [HEARTBEAT_COOLDOWN] state a [disconnect] event targets
    [HEARTBEAT_STOPPED] (keeping the channels and groups) and a [leftAll]
    event targets [HEARTBEAT_INACTIVE]; both transitions carry the same
    effects: exactly one [leave] for the context's channels and groups when
    the event is not flagged offline, and no effect when it is. *)
Theorem C3_cooldown_disconnect_leftAll (context : Context)
    (offline : option bool) :
  let engine := Core.mkEngine contextOf HEARTBEAT_COOLDOWN context in
  ∃ effs : list Effect,
    Core.transition HeartbeatCooldownState context (disconnect offline)
    = Some (Core.mkTransition contextOf HEARTBEAT_STOPPED
              (mkContext (channels context) (groups context)) effs)
    ∧ (Core.process engine_states engine (disconnect offline)).1
      = Core.mkEngine contextOf HEARTBEAT_STOPPED
          (mkContext (channels context) (groups context))
    ∧ Core.transition HeartbeatCooldownState context (leftAll offline)
      = Some (Core.mkTransition contextOf HEARTBEAT_INACTIVE tt effs)
    ∧ (Core.process engine_states engine (leftAll offline)).1
      = Core.mkEngine contextOf HEARTBEAT_INACTIVE tt
    ∧ (leave (channels context) (groups context) ∈ effs
       ↔ offline ≠ Some true)
    ∧ (offline ≠ Some true
       → effs = [leave (channels context) (groups context)])
    ∧ (offline = Some true → effs = []).
Proof.
  intros engine.
  exists (leave_unless_offline context (mkOfflinePayload offline)).
  split; [reflexivity|].
  unfold engine.
  rewrite (process_cooldown context _ _ (transition_disconnect context offline)).
  split; [reflexivity|]. split; [reflexivity|].
  rewrite (process_cooldown context _ _ (transition_leftAll context offline)).
  split; [reflexivity|].
  unfold leave_unless_offline. cbn [isOffline].
  destruct offline as [[|]|]; cbn; repeat split; try done.
  - by intros ?%elem_of_nil.
  - intros _. apply list_elem_of_singleton. done.
  - intros _. apply list_elem_of_singleton. done.
Qed.

(** A [joined] event keeps the lists free of duplicates when the payload's
    own lists are. *)
Lemma joined_NoDup (context : Context) (chs grs : list string) :
  NoDup (channels context) → NoDup (groups context) →
  NoDup chs → NoDup grs →
  ∃ context',
    Core.transition HeartbeatCooldownState context (joined chs grs)
    = Some (Core.mkTransition contextOf HEARTBEATING context' [])
    ∧ NoDup (channels context') ∧ NoDup (groups context').
Proof.
  intros Hc Hg Hchs Hgrs. eexists. split; [reflexivity|].
  split; by apply NoDup_append_missing.
Qed.

(** A [joined] event whose members are all present already leaves the lists
    as they are. *)
Lemma joined_present (context : Context) (chs grs : list string) :
  (∀ x, x ∈ chs → x ∈ channels context) →
  (∀ x, x ∈ grs → x ∈ groups context) →
  Core.transition HeartbeatCooldownState context (joined chs grs)
  = Some (Core.mkTransition contextOf HEARTBEATING
            (mkContext (channels context) (groups context)) []).
Proof.
  intros Hchs Hgrs. rewrite transition_joined. unfold on_joined.
  cbn [payload_channels payload_groups].
  by rewrite !append_missing_present.
Qed.

(** C6: the code at the failing input.  The cooldown context is empty, hence
    free of duplicates, and the [joined] event names the channel ["room1"]
    twice; the resulting [HEARTBEATING] context lists ["room1"] twice: the
    filter compares the payload with the context only, not with itself. *)
Theorem C6_joined_duplicate_payload :
  let context := mkContext [] [] in
  NoDup (channels context) ∧ NoDup (groups context)
  ∧ Core.transition HeartbeatCooldownState context
      (joined ["room1"; "room1"] [])
    = Some (Core.mkTransition contextOf HEARTBEATING
              (mkContext ["room1"; "room1"] []) [])
  ∧ ¬ NoDup ["room1"; "room1"].
Proof.
  cbn zeta. split; [constructor|]. split; [constructor|].
  split; [reflexivity|].
  intros Hdup. apply NoDup_cons in Hdup as [Hnot _].
  apply Hnot. left.
Qed.

(** C7: the [HEARTBEAT_COOLDOWN] state has one enter effect, [wait], and one
    exit effect, the cancellation of [wait]; whenever the engine enters the
    state, from whatever state, [wait] is invoked last; whenever it leaves
    the state the cancellation is invoked first; and after the effects of
    such an exit have been dispatched, the timer that was pending runs out
    without a [timesUp] being delivered. *)
Theorem C7_cooldown_timer :
  (∀ context,
     map (λ effect, effect context) (Core.enterEffects HeartbeatCooldownState)
     = [wait]
     ∧ map (λ effect, effect context)
         (Core.exitEffects HeartbeatCooldownState)
       = [wait_cancel])
  ∧ (∀ (engine : Engine) (event : Event) (tr : Transition),
       Core.transition (engine_states (Core.currentState engine))
         (Core.currentContext engine) event = Some tr →
       Core.target tr = HEARTBEAT_COOLDOWN →
       Core.currentState (Core.process engine_states engine event).1
       = HEARTBEAT_COOLDOWN
       ∧ ∃ before, (Core.process engine_states engine event).2
                   = before ++ [wait])
  ∧ (∀ (context : Context) (event : Event) (tr : Transition),
       Core.transition HeartbeatCooldownState context event = Some tr →
       ∃ rest,
         (Core.process engine_states
            (Core.mkEngine contextOf HEARTBEAT_COOLDOWN context) event).2
         = wait_cancel :: rest)
  ∧ (∀ (context : Context) (event : Event) (tr : Transition)
       (d : Dispatcher) (h : nat),
       Core.transition HeartbeatCooldownState context event = Some tr →
       active_wait d = Some h → (h < next_handle d)%nat →
       timer_fired
         (dispatch_all d
            (Core.process engine_states
               (Core.mkEngine contextOf HEARTBEAT_COOLDOWN context) event).2)
         h
       = None).
Proof.
  split; [done|]. split; [|split].
  - intros engine event tr Htr Htarget.
    rewrite (CoreFacts.process_Some engine_states engine event tr Htr).
    cbn [fst snd Core.currentState]. split; [done|].
    destruct tr as [target context' effs]. cbn in Htarget. subst target.
    cbn [Core.target Core.targetContext Core.effects engine_states states].
    eexists. rewrite app_assoc. reflexivity.
  - intros context event tr Htr.
    rewrite (process_cooldown context event tr Htr). by eexists.
  - intros context event tr d h Htr Hactive Hlt.
    rewrite (process_cooldown context event tr Htr). cbn [snd].
    apply timer_fired_stale.
    change (dispatch_all d (wait_cancel :: ?l))
      with (dispatch_all (dispatch d wait_cancel) l).
    apply dispatch_all_stale; cbn; done.
Qed.

(** C8: in the [HEARTBEAT_COOLDOWN] state a [timesUp] event targets
    [HEARTBEATING] with the channels and groups of the cooldown context,
    unchanged, and the engine moves there. *)
Theorem C8_cooldown_timesUp (context : Context) :
  Core.transition HeartbeatCooldownState context timesUp
  = Some (Core.mkTransition contextOf HEARTBEATING context [])
  ∧ (Core.process engine_states
       (Core.mkEngine contextOf HEARTBEAT_COOLDOWN context) timesUp).1
    = Core.mkEngine contextOf HEARTBEATING
        (mkContext (channels context) (groups context)).
Proof.
  split.
  - by destruct context.
  - by rewrite (process_cooldown context _ _ (transition_timesUp context)).
Qed.

End Claims.

(** C2 (as stated) fails: with leave events suppressed the specification has
    the [left] transition carry no [leave] effect, but the transition for
    context [{channels: ['room1'], groups: []}] and event
    [left(['room1'], [])] carries one all the same. *)
Lemma C2_left_ignores_suppression :
  Core.transition HeartbeatCooldownState (mkContext ["room1"] [])
    (left ["room1"] [])
  = Some (Core.mkTransition contextOf HEARTBEATING (mkContext [] [])
            [leave ["room1"] []])
  ∧ [leave ["room1"] []]
    ≠ spec_left_effects true (mkMembersPayload ["room1"] []).
Proof. split; [reflexivity|discriminate]. Qed.

Lemma C3_cooldown_disconnect_leftAll_witness :
  Core.transition HeartbeatCooldownState (mkContext ["room1"] ["group1"])
    (disconnect (Some true))
  = Some (Core.mkTransition contextOf HEARTBEAT_STOPPED
            (mkContext ["room1"] ["group1"]) [])
  ∧ Core.transition HeartbeatCooldownState (mkContext ["room1"] ["group1"])
      (leftAll None)
    = Some (Core.mkTransition contextOf HEARTBEAT_INACTIVE tt
              [leave ["room1"] ["group1"]]).
Proof.
  split.
  - destruct (C3_cooldown_disconnect_leftAll placeholder_inactive
                placeholder_heartbeating placeholder_heartbeating
                placeholder_heartbeating
                (mkContext ["room1"] ["group1"]) (Some true))
      as (effs & Hdisconnect & _ & _ & _ & _ & _ & Hoffline).
    rewrite Hdisconnect. rewrite (Hoffline eq_refl). reflexivity.
  - destruct (C3_cooldown_disconnect_leftAll placeholder_inactive
                placeholder_heartbeating placeholder_heartbeating
                placeholder_heartbeating
                (mkContext ["room1"] ["group1"]) None)
      as (effs & _ & _ & HleftAll & _ & _ & Honline & _).
    rewrite HleftAll. rewrite Honline; [reflexivity|discriminate].
Defined.

Lemma C7_cooldown_timer_witness :
  timer_fired
    (dispatch_all (mkDispatcher 1 (Some 0%nat))
       (Core.process
          (states placeholder_inactive placeholder_heartbeating
             placeholder_heartbeating placeholder_heartbeating)
          (Core.mkEngine contextOf HEARTBEAT_COOLDOWN (mkContext ["room1"] []))
          (joined ["room2"] [])).2)
    0
  = None.
Proof.
  apply (proj2 (proj2 (proj2
           (C7_cooldown_timer placeholder_inactive placeholder_heartbeating
              placeholder_heartbeating placeholder_heartbeating)))
         (mkContext ["room1"] []) (joined ["room2"] [])
         (Core.mkTransition contextOf HEARTBEATING
            (mkContext ["room1"; "room2"] []) [])
         (mkDispatcher 1 (Some 0%nat)) 0%nat).
  - reflexivity.
  - reflexivity.
  - cbn. lia.
Defined.

End PresenceFacts.

(** ** String coercions *)

Module JsFacts.

Lemma truthy_false (s : option string) :
  Js.truthy s = false ↔ s = None ∨ s = Some "".
Proof.
  destruct s as [s|]; cbn.
  - rewrite negb_false_iff, String.eqb_eq. split.
    + intros ->. by right.
    + intros [Hnone|Hsome]; [discriminate|congruence].
  - split; [by left|done].
Qed.

Lemma truthy_true (s : option string) :
  Js.truthy s = true ↔ ∃ s', s = Some s' ∧ s' ≠ "".
Proof.
  destruct s as [s|]; cbn.
  - rewrite negb_true_iff, String.eqb_neq. split.
    + intros Hne. by exists s.
    + by intros (s' & [= ->] & Hne).
  - split; [done|]. by intros (s' & ? & _).
Qed.

Lemma all_white_space_trimStart (s : string) :
  Js.all_white_space (Js.trimStart s) = Js.all_white_space s.
Proof.
  induction s as [|c s IH]; [done|].
  cbn [Js.trimStart]. destruct (Js.is_white_space c) eqn:Hc; [|done].
  rewrite IH. unfold Js.all_white_space. cbn. by rewrite Hc.
Qed.

Lemma trimStart_empty (s : string) :
  Js.trimStart s = "" ↔ Js.all_white_space s = true.
Proof.
  induction s as [|c s IH]; [done|].
  unfold Js.all_white_space in *. cbn.
  destruct (Js.is_white_space c); [exact IH|done].
Qed.

Lemma all_white_space_reverse (s : string) :
  Js.all_white_space (Js.reverse_string s) = Js.all_white_space s.
Proof.
  unfold Js.all_white_space, Js.reverse_string.
  rewrite list_ascii_of_string_of_list_ascii.
  apply eq_true_iff_eq. rewrite !forallb_forall.
  split; intros Hall c Hc; apply Hall.
  - by rewrite <- in_rev.
  - by rewrite in_rev.
Qed.

Lemma reverse_string_empty (s : string) :
  Js.reverse_string s = "" ↔ s = "".
Proof.
  split; [|by intros ->].
  unfold Js.reverse_string. intros Hrev.
  apply (f_equal list_ascii_of_string) in Hrev.
  rewrite list_ascii_of_string_of_list_ascii in Hrev. cbn in Hrev.
  apply (f_equal (@rev ascii)) in Hrev. rewrite rev_involutive in Hrev.
  cbn in Hrev. destruct s; [done|discriminate].
Qed.

(** A string trims to the empty string exactly when it consists of white
    space only. *)
Lemma trim_empty (s : string) :
  Js.trim s = "" ↔ Js.all_white_space s = true.
Proof.
  unfold Js.trim, Js.trimEnd.
  rewrite reverse_string_empty, trimStart_empty.
  by rewrite all_white_space_reverse, all_white_space_trimStart.
Qed.

Lemma trim_length_zero (s : string) :
  (String.length (Js.trim s) =? 0)%nat = true
  ↔ Js.all_white_space s = true.
Proof.
  rewrite <- trim_empty, Nat.eqb_eq.
  destruct (Js.trim s); cbn; split; done.
Qed.

End JsFacts.

(** ** Request validation *)

Module ObjectsFacts.

Lemma missing_or_empty_members {A} (l : option (list A)) :
  SetChannelMembers.missing_or_empty l = true ↔ l = None ∨ l = Some [].
Proof.
  destruct l as [[|a l]|]; cbn; split; intros H; try done.
  - by right.
  - by destruct H.
  - by left.
Qed.

Lemma missing_or_empty_memberships {A} (l : option (list A)) :
  SetUUIDMemberships.missing_or_empty l = true ↔ l = None ∨ l = Some [].
Proof.
  destruct l as [[|a l]|]; cbn; split; intros H; try done.
  - by right.
  - by destruct H.
  - by left.
Qed.

Lemma members_validate_Some (parameters : SetChannelMembers.RequestParameters) :
  is_Some (SetChannelMembers.validate parameters)
  ↔ (SetChannelMembers.channel parameters = None
     ∨ SetChannelMembers.channel parameters = Some "")
    ∨ (SetChannelMembers.uuids parameters = None
       ∨ SetChannelMembers.uuids parameters = Some []).
Proof.
  rewrite <- JsFacts.truthy_false, <- missing_or_empty_members.
  unfold SetChannelMembers.validate.
  destruct (Js.truthy (SetChannelMembers.channel parameters));
    destruct (SetChannelMembers.missing_or_empty
                (SetChannelMembers.uuids parameters)); cbn;
    (split; [intros [x Hx]; try discriminate; auto
            |intros [?|?]; try discriminate; by eexists]).
Qed.

Lemma memberships_validate_Some
    (parameters : SetUUIDMemberships.RequestParameters) :
  is_Some (SetUUIDMemberships.validate parameters)
  ↔ (SetUUIDMemberships.uuid parameters = None
     ∨ SetUUIDMemberships.uuid parameters = Some "")
    ∨ (SetUUIDMemberships.channels parameters = None
       ∨ SetUUIDMemberships.channels parameters = Some []).
Proof.
  rewrite <- JsFacts.truthy_false, <- missing_or_empty_memberships.
  unfold SetUUIDMemberships.validate.
  destruct (Js.truthy (SetUUIDMemberships.uuid parameters));
    destruct (SetUUIDMemberships.missing_or_empty
                (SetUUIDMemberships.channels parameters)); cbn;
    (split; [intros [x Hx]; try discriminate; auto
            |intros [?|?]; try discriminate; by eexists]).
Qed.

(** C9: [validate] of a Set Channel Members request returns an error message
    exactly when the channel is empty (absent or the empty string) or the
    [uuids] list is missing or empty, and [validate] of a Set UUID
    Memberships request returns one exactly when the request's [uuid] (the
    [userId] parameter when that is given, else the [uuid] parameter) is
    empty or the [channels] list is missing or empty; in every other case
    [validate] returns [undefined]. *)
Theorem C9_validate :
  (∀ parameters : SetChannelMembers.RequestParameters,
     let request := SetChannelMembers.constructor parameters in
     SetChannelMembers.channel request = SetChannelMembers.channel parameters
     ∧ SetChannelMembers.uuids request = SetChannelMembers.uuids parameters
     ∧ (is_Some (SetChannelMembers.validate request)
        ↔ (SetChannelMembers.channel request = None
           ∨ SetChannelMembers.channel request = Some "")
          ∨ (SetChannelMembers.uuids request = None
             ∨ SetChannelMembers.uuids request = Some []))
     ∧ (SetChannelMembers.validate request = None
        ↔ ¬ ((SetChannelMembers.channel request = None
              ∨ SetChannelMembers.channel request = Some "")
             ∨ (SetChannelMembers.uuids request = None
                ∨ SetChannelMembers.uuids request = Some []))))
  ∧ (∀ parameters : SetUUIDMemberships.RequestParameters,
       let request := SetUUIDMemberships.constructor parameters in
       SetUUIDMemberships.uuid request
       = (if Js.truthy (SetUUIDMemberships.userId parameters)
          then SetUUIDMemberships.userId parameters
          else SetUUIDMemberships.uuid parameters)
       ∧ SetUUIDMemberships.channels request
         = SetUUIDMemberships.channels parameters
       ∧ (is_Some (SetUUIDMemberships.validate request)
          ↔ (SetUUIDMemberships.uuid request = None
             ∨ SetUUIDMemberships.uuid request = Some "")
            ∨ (SetUUIDMemberships.channels request = None
               ∨ SetUUIDMemberships.channels request = Some []))
       ∧ (SetUUIDMemberships.validate request = None
          ↔ ¬ ((SetUUIDMemberships.uuid request = None
                ∨ SetUUIDMemberships.uuid request = Some "")
               ∨ (SetUUIDMemberships.channels request = None
                  ∨ SetUUIDMemberships.channels request = Some [])))).
Proof.
  split.
  - intros parameters request. split; [done|]. split; [done|].
    split; [apply members_validate_Some|].
    rewrite (eq_None_not_Some (SetChannelMembers.validate request)).
    by rewrite members_validate_Some.
  - intros parameters request. split; [done|]. split; [done|].
    split; [apply memberships_validate_Some|].
    rewrite (eq_None_not_Some (SetUUIDMemberships.validate request)).
    by rewrite memberships_validate_Some.
Qed.

End ObjectsFacts.

(** ** Configuration defaults *)

Module ConfigurationFacts.
Import Configuration.

(** The identifier [setDefaults] settles on: [userId], or [uuid] when
    [userId] is absent. *)
Lemma setDefaults_both (c : UserConfiguration) :
  Js.truthy (userId c) && Js.truthy (uuid c) = true →
  setDefaults c
  = thrown (mkPubNubError
              "PubNub client configuration error: use only 'userId'").
Proof. unfold setDefaults. by intros ->. Qed.

Lemma setDefaults_not_set (c : UserConfiguration) :
  Js.truthy (userId c) && Js.truthy (uuid c) = false →
  Js.truthy (Js.nullish_assign (userId c) (uuid c)) = false →
  setDefaults c
  = thrown (mkPubNubError
              "PubNub client configuration error: 'userId' not set").
Proof. unfold setDefaults. by intros -> ->. Qed.

Lemma setDefaults_empty (c : UserConfiguration) :
  Js.truthy (userId c) && Js.truthy (uuid c) = false →
  Js.truthy (Js.nullish_assign (userId c) (uuid c)) = true →
  (String.length
     (Js.trim (Js.nullish (Js.nullish_assign (userId c) (uuid c)) ""))
   =? 0)%nat = true →
  setDefaults c
  = thrown (mkPubNubError
              "PubNub client configuration error: 'userId' is empty").
Proof. unfold setDefaults. by intros -> -> ->. Qed.

Lemma setDefaults_returns (c : UserConfiguration) :
  Js.truthy (userId c) && Js.truthy (uuid c) = false →
  Js.truthy (Js.nullish_assign (userId c) (uuid c)) = true →
  (String.length
     (Js.trim (Js.nullish (Js.nullish_assign (userId c) (uuid c)) ""))
   =? 0)%nat = false →
  ∃ result,
    setDefaults c = returned result
    ∧ userId (configurationCopy result.1)
      = Js.nullish_assign (userId c) (uuid c).
Proof.
  unfold setDefaults. intros -> -> ->.
  destruct (checked_presenceTimeout (presenceTimeout c)) as [timeout warnings].
  eexists. split; reflexivity.
Qed.

(** The identifier is unset or consists of white space only. *)
Lemma blank_identifier (identifier : option string) :
  (identifier = None
   ∨ ∃ s, identifier = Some s ∧ String.length (Js.trim s) = 0%nat)
  ↔ Js.truthy identifier = false
    ∨ (String.length (Js.trim (Js.nullish identifier "")) =? 0)%nat = true.
Proof.
  rewrite Nat.eqb_eq. destruct identifier as [s|].
  - cbn [Js.nullish]. split.
    + intros [Hnone|(s' & Hsome & Hs)]; [discriminate|].
      injection Hsome as <-. by right.
    + intros [Hs|Hs]; right; exists s; (split; [done|]); [|done].
      apply JsFacts.truthy_false in Hs as [Hs|Hs]; [discriminate|].
      by injection Hs as ->.
  - split; intros _; by left.
Qed.

(** C10: [setDefaults] throws a [PubNubError] for every configuration that
    sets both [userId] and [uuid] (both given and non-empty, which is what
    the test [userId && uuid] asks); otherwise the identifier is [userId],
    or [uuid] when [userId] is absent, and [setDefaults] throws a
    [PubNubError] exactly when that identifier is unset or trims to length
    zero, that is, consists of white space only; for every other
    configuration it returns, with the identifier as [userId]. *)
Theorem C10_setDefaults (c : UserConfiguration) :
  let both := Js.truthy (userId c) = true ∧ Js.truthy (uuid c) = true in
  let identifier := Js.nullish_assign (userId c) (uuid c) in
  let blank :=
    identifier = None
    ∨ ∃ s, identifier = Some s ∧ String.length (Js.trim s) = 0%nat in
  (both → ∃ error, setDefaults c = thrown error)
  ∧ (userId c = None → identifier = uuid c)
  ∧ (¬ both → ((∃ error, setDefaults c = thrown error) ↔ blank))
  ∧ (¬ both → ¬ blank →
     ∃ result,
       setDefaults c = returned result
       ∧ userId (configurationCopy result.1) = identifier)
  ∧ (∀ s, String.length (Js.trim s) = 0%nat
          ↔ Js.all_white_space s = true).
Proof.
  intros both identifier blank.
  assert (¬ both → Js.truthy (userId c) && Js.truthy (uuid c) = false)
    as Hnot_both.
  { intros Hnot. apply not_true_is_false. intros [? ?]%andb_true_iff.
    by apply Hnot. }
  split; [|split; [|split; [|split]]].
  - intros [H1 H2]. eexists. apply setDefaults_both. by rewrite H1, H2.
  - intros Hnone. unfold identifier. by rewrite Hnone.
  - intros Hnot%Hnot_both. unfold blank. rewrite blank_identifier.
    fold identifier. split.
    + intros [error Hthrown].
      destruct (Js.truthy identifier) eqn:Htruthy; [|by left]. right.
      destruct (String.length (Js.trim (Js.nullish identifier "")) =? 0)%nat
        eqn:Hlength; [done|].
      destruct (setDefaults_returns c Hnot Htruthy Hlength)
        as (result & Hreturned & _).
      congruence.
    + intros [Hfalsy|Hlength].
      * eexists. by apply setDefaults_not_set.
      * destruct (Js.truthy identifier) eqn:Htruthy.
        -- eexists. by apply setDefaults_empty.
        -- eexists. by apply setDefaults_not_set.
  - intros Hnot%Hnot_both Hnot_blank. unfold blank in Hnot_blank.
    rewrite blank_identifier in Hnot_blank. fold identifier in Hnot_blank.
    apply setDefaults_returns; [done|..].
    + apply not_false_is_true. intros Hfalsy. apply Hnot_blank. by left.
    + apply not_true_is_false. intros Hlength. apply Hnot_blank. by right.
  - intros s. rewrite <- JsFacts.trim_length_zero. by rewrite Nat.eqb_eq.
Qed.

(** An empty [uuid] next to a [userId] does not count as set: the test
    [userId && uuid] is false and [setDefaults] returns. *)
Example setDefaults_empty_uuid :
  ∃ result,
    setDefaults (example_configuration (Some "me") (Some ""))
    = returned result
    ∧ userId (configurationCopy result.1) = Some "me".
Proof. eexists. split; reflexivity. Qed.

Lemma C10_setDefaults_witness :
  (∃ error,
     setDefaults (example_configuration (Some "me") (Some "myUUID"))
     = thrown error)
  ∧ (∃ error,
       setDefaults (example_configuration None (Some "   ")) = thrown error)
  ∧ (∃ result,
       setDefaults (example_configuration None (Some "myUUID"))
       = returned result
       ∧ userId (configurationCopy result.1) = Some "myUUID").
Proof.
  split; [|split].
  - pose proof (C10_setDefaults
                  (example_configuration (Some "me") (Some "myUUID")))
      as (Hboth & _).
    apply Hboth. split; reflexivity.
  - pose proof (C10_setDefaults (example_configuration None (Some "   ")))
      as (_ & _ & Hblank & _).
    apply Hblank.
    + intros [Hid _]. discriminate Hid.
    + right. exists "   ". split; reflexivity.
  - pose proof (C10_setDefaults (example_configuration None (Some "myUUID")))
      as (_ & _ & _ & Hreturns & _).
    apply Hreturns.
    + intros [Hid _]. discriminate Hid.
    + intros [Hnone|(s & Hsome & Hlength)]; [discriminate|].
      injection Hsome as <-. discriminate Hlength.
Defined.

End ConfigurationFacts.

(** * Further properties of the sources *)

(** ** The [HEARTBEAT_COOLDOWN] state: joining and leaving *)

Module PresenceExtras.
Import Presence.

Lemma filter_none (P : string → Prop) `{∀ x, Decision (P x)}
    (l : list string) :
  (∀ x, x ∈ l → ¬ P x) → filter P l = [].
Proof.
  induction l as [|a l IH]; intros Hnone; [done|].
  rewrite filter_cons. destruct (decide (P a)) as [Ha|_].
  - exfalso. apply (Hnone a); [left|done].
  - apply IH. intros x Hx. apply Hnone. by right.
Qed.

Lemma filter_every (P : string → Prop) `{∀ x, Decision (P x)}
    (l : list string) :
  (∀ x, x ∈ l → P x) → filter P l = l.
Proof.
  induction l as [|a l IH]; intros Hall; [done|].
  rewrite filter_cons. destruct (decide (P a)) as [_|Ha].
  - f_equal. apply IH. intros x Hx. apply Hall. by right.
  - exfalso. apply Ha, Hall. left.
Qed.

Lemma append_missing_twice (context added : list string) :
  append_missing (append_missing context added) added
  = append_missing context added.
Proof.
  apply PresenceFacts.append_missing_present.
  intros x Hx. apply PresenceFacts.elem_of_append_missing. by right.
Qed.

Lemma without_append_missing (context added : list string) :
  (∀ x, x ∈ added → x ∉ context) →
  without (append_missing context added) added = context.
Proof.
  intros Hfresh. unfold without, append_missing. rewrite filter_app.
  rewrite (filter_none (λ x, x ∉ added) (filter (λ x, x ∉ context) added)).
  - rewrite app_nil_r. apply filter_every.
    intros x Hx Hadded. by apply (Hfresh x).
  - intros x [_ Hx]%list_elem_of_filter Hnot. done.
Qed.

Lemma without_all (context removed : list string) :
  (∀ x, x ∈ context → x ∈ removed) → without context removed = [].
Proof.
  intros Hall. unfold without. apply filter_none.
  intros x Hx Hnot. by apply Hnot, Hall.
Qed.

(** X1: joining is idempotent.  Whatever the payload, the context a [joined]
    event produces is reproduced when the same [joined] event is handled in
    that context again: no member is added a second time. *)
Theorem joined_twice (context : Context) (chs grs : list string) :
  ∃ context' : Context,
    Core.transition HeartbeatCooldownState context (joined chs grs)
    = Some (Core.mkTransition contextOf HEARTBEATING context' [])
    ∧ Core.transition HeartbeatCooldownState context' (joined chs grs)
      = Some (Core.mkTransition contextOf HEARTBEATING context' []).
Proof.
  eexists. split; [reflexivity|].
  rewrite PresenceFacts.transition_joined. unfold on_joined.
  cbn [channels groups payload_channels payload_groups].
  by rewrite !append_missing_twice.
Qed.

(** X2: when the context and the payload of a [joined] or [left] event list
    no channel and no group twice, neither does the context the transition
    produces. *)
Theorem joined_left_NoDup (context : Context) (chs grs : list string) :
  NoDup (channels context) → NoDup (groups context) →
  NoDup chs → NoDup grs →
  ∃ joined_context left_context : Context,
    Core.transition HeartbeatCooldownState context (joined chs grs)
    = Some (Core.mkTransition contextOf HEARTBEATING joined_context [])
    ∧ NoDup (channels joined_context) ∧ NoDup (groups joined_context)
    ∧ Core.transition HeartbeatCooldownState context (left chs grs)
      = Some (Core.mkTransition contextOf HEARTBEATING left_context
                [leave chs grs])
    ∧ NoDup (channels left_context) ∧ NoDup (groups left_context).
Proof.
  intros Hc Hg Hchs Hgrs. do 2 eexists.
  split; [reflexivity|].
  split; [by apply PresenceFacts.NoDup_append_missing|].
  split; [by apply PresenceFacts.NoDup_append_missing|].
  split; [reflexivity|].
  split; by apply PresenceFacts.NoDup_without.
Qed.


(** X4: a [left] event never adds a member and never reorders: the new
    lists are sublists of the old ones, no member named in the payload is
    left in them, and every other member is. *)
Theorem left_removes (context : Context) (chs grs : list string) :
  ∃ context' : Context,
    Core.transition HeartbeatCooldownState context (left chs grs)
    = Some (Core.mkTransition contextOf HEARTBEATING context'
              [leave chs grs])
    ∧ channels context' `sublist_of` channels context
    ∧ groups context' `sublist_of` groups context
    ∧ (∀ x, x ∈ chs → x ∉ channels context')
    ∧ (∀ x, x ∈ grs → x ∉ groups context')
    ∧ (∀ x, x ∈ channels context → x ∉ chs → x ∈ channels context')
    ∧ (∀ x, x ∈ groups context → x ∉ grs → x ∈ groups context').
Proof.
  eexists. split; [reflexivity|].
  cbn [channels groups].
  split; [apply sublist_filter|]. split; [apply sublist_filter|].
  split; [|split; [|split]].
  - intros x Hx [_ Hnot]%PresenceFacts.elem_of_without. done.
  - intros x Hx [_ Hnot]%PresenceFacts.elem_of_without. done.
  - intros x Hx Hnot. by apply PresenceFacts.elem_of_without.
  - intros x Hx Hnot. by apply PresenceFacts.elem_of_without.
Qed.

(** X5: joining and then leaving members that were not present restores
    the channel and group lists: a [left] event handled in the context a
    [joined] event produced, with the same payload, gives the lists of the
    original context back. *)
Theorem joined_then_left (context : Context) (chs grs : list string) :
  (∀ x, x ∈ chs → x ∉ channels context) →
  (∀ x, x ∈ grs → x ∉ groups context) →
  ∃ context' : Context,
    Core.transition HeartbeatCooldownState context (joined chs grs)
    = Some (Core.mkTransition contextOf HEARTBEATING context' [])
    ∧ Core.transition HeartbeatCooldownState context' (left chs grs)
      = Some (Core.mkTransition contextOf HEARTBEATING
                (mkContext (channels context) (groups context))
                [leave chs grs]).
Proof.
  intros Hchs Hgrs. eexists. split; [reflexivity|].
  rewrite PresenceFacts.transition_left. unfold on_left.
  cbn [channels groups payload_channels payload_groups].
  by rewrite !without_append_missing.
Qed.

(** X6: leaving every channel and group does not make the state inactive:
    a [left] event that names all members of the context still targets
    [HEARTBEATING], with empty lists, and carries the [leave] effect. *)
Theorem left_everything (context : Context) (chs grs : list string) :
  (∀ x, x ∈ channels context → x ∈ chs) →
  (∀ x, x ∈ groups context → x ∈ grs) →
  Core.transition HeartbeatCooldownState context (left chs grs)
  = Some (Core.mkTransition contextOf HEARTBEATING (mkContext [] [])
            [leave chs grs]).
Proof.
  intros Hchs Hgrs. rewrite PresenceFacts.transition_left. unfold on_left.
  cbn [payload_channels payload_groups].
  by rewrite !without_all.
Qed.

(** X7: every transition of the state leaves it: the target is
    [HEARTBEATING], [HEARTBEAT_STOPPED] or [HEARTBEAT_INACTIVE], never the
    cooldown state itself nor [HEARTBEAT_FAILED]; and a transition carries
    no effect or exactly one, a [leave]. *)
Theorem cooldown_transitions (context : Context) (event : Event)
    (tr : Transition) :
  Core.transition HeartbeatCooldownState context event = Some tr →
  (Core.target tr = HEARTBEATING ∨ Core.target tr = HEARTBEAT_STOPPED
   ∨ Core.target tr = HEARTBEAT_INACTIVE)
  ∧ (Core.effects tr = []
     ∨ ∃ chs grs, Core.effects tr = [leave chs grs]).
Proof.
  destruct event as [t payload]. destruct t; cbn; intros [= <-]; cbn.
  - split; [by left|by left].
  - split; [by left|by left].
  - split; [by left|]. right. by do 2 eexists.
  - split; [right; by left|].
    unfold leave_unless_offline.
    destruct (negb (Js.truthy_bool (isOffline payload)));
      [right; by do 2 eexists|by left].
  - split; [right; by right|].
    unfold leave_unless_offline.
    destruct (negb (Js.truthy_bool (isOffline payload)));
      [right; by do 2 eexists|by left].
Qed.

Lemma joined_left_NoDup_witness :
  ∃ joined_context left_context : Context,
    Core.transition HeartbeatCooldownState (mkContext ["a"; "b"] ["g"])
      (joined ["b"; "c"] [])
    = Some (Core.mkTransition contextOf HEARTBEATING joined_context [])
    ∧ NoDup (channels joined_context) ∧ NoDup (groups joined_context)
    ∧ Core.transition HeartbeatCooldownState (mkContext ["a"; "b"] ["g"])
        (left ["b"; "c"] [])
      = Some (Core.mkTransition contextOf HEARTBEATING left_context
                [leave ["b"; "c"] []])
    ∧ NoDup (channels left_context) ∧ NoDup (groups left_context).
Proof.
  apply (joined_left_NoDup (mkContext ["a"; "b"] ["g"]) ["b"; "c"] []);
    cbn; refine (bool_decide_unpack _ _); vm_compute; exact I.
Defined.

Lemma joined_then_left_witness :
  ∃ context' : Context,
    Core.transition HeartbeatCooldownState (mkContext ["a"] ["g"])
      (joined ["b"] [])
    = Some (Core.mkTransition contextOf HEARTBEATING context' [])
    ∧ Core.transition HeartbeatCooldownState context' (left ["b"] [])
      = Some (Core.mkTransition contextOf HEARTBEATING
                (mkContext ["a"] ["g"]) [leave ["b"] []]).
Proof.
  apply (joined_then_left (mkContext ["a"] ["g"]) ["b"] []); cbn.
  - intros x Hx. apply list_elem_of_singleton in Hx as ->.
    refine (bool_decide_unpack _ _). vm_compute. exact I.
  - intros x Hx. by apply elem_of_nil in Hx.
Defined.

Lemma left_everything_witness :
  Core.transition HeartbeatCooldownState (mkContext ["a"] ["g"])
    (left ["a"; "b"] ["g"])
  = Some (Core.mkTransition contextOf HEARTBEATING (mkContext [] [])
            [leave ["a"; "b"] ["g"]]).
Proof.
  apply (left_everything (mkContext ["a"] ["g"]) ["a"; "b"] ["g"]); cbn.
  - intros x Hx. apply list_elem_of_singleton in Hx as ->. left.
  - intros x Hx. apply list_elem_of_singleton in Hx as ->. left.
Defined.

Lemma cooldown_transitions_witness :
  (Core.target (on_leftAll (mkContext ["a"] []) (mkOfflinePayload None))
   = HEARTBEATING
   ∨ Core.target (on_leftAll (mkContext ["a"] []) (mkOfflinePayload None))
     = HEARTBEAT_STOPPED
   ∨ Core.target (on_leftAll (mkContext ["a"] []) (mkOfflinePayload None))
     = HEARTBEAT_INACTIVE)
  ∧ (Core.effects (on_leftAll (mkContext ["a"] []) (mkOfflinePayload None))
     = []
     ∨ ∃ chs grs,
         Core.effects
           (on_leftAll (mkContext ["a"] []) (mkOfflinePayload None))
         = [leave chs grs]).
Proof.
  apply (cooldown_transitions (mkContext ["a"] []) (leftAll None)).
  reflexivity.
Defined.

End PresenceExtras.

(** ** The [UNSUBSCRIBED] state: what a transition can produce *)

Module SubscriptionExtras.
Import Subscription.

(** X8: whatever the event, a transition of the [UNSUBSCRIBED] state carries
    no effect and either stays in [UNSUBSCRIBED] or targets [HANDSHAKING]
    with a context in which the channels and the groups are not both empty:
    the state never starts a handshake for an empty subscription. *)
Theorem unsubscribed_transitions {Effect : Type} (event : Event)
    (tr : @Core.Transition Label Effect contextOf) :
  Core.transition UnsubscribedState tt event = Some tr →
  tr = Core.mkTransition contextOf UNSUBSCRIBED tt []
  ∨ ∃ (channels groups : list string) (cursor : option Cursor),
      tr = Core.mkTransition contextOf HANDSHAKING
             (mkContext channels groups cursor) []
      ∧ (channels ≠ [] ∨ groups ≠ []).
Proof.
  destruct event as [t payload]. destruct t; cbn; intros [= <-].
  - unfold on_subscriptionChange.
    destruct (is_empty (change_channels payload)
              && is_empty (change_groups payload)) eqn:Hempty;
      [by left|right].
    do 3 eexists. split; [reflexivity|].
    by apply SubscriptionFacts.not_both_empty.
  - unfold on_restore.
    destruct (is_empty (restore_channels payload)
              && is_empty (restore_groups payload)) eqn:Hempty;
      [by left|right].
    do 3 eexists. split; [reflexivity|].
    by apply SubscriptionFacts.not_both_empty.
Qed.

Lemma unsubscribed_transitions_witness :
  on_restore (Effect := unit) tt
    (mkRestorePayload [] ["group1"]
       (mkCursorInput (timetoken_string "15000000000000000") 4))
  = Core.mkTransition contextOf UNSUBSCRIBED tt []
  ∨ ∃ (channels groups : list string) (cursor : option Cursor),
      on_restore (Effect := unit) tt
        (mkRestorePayload [] ["group1"]
           (mkCursorInput (timetoken_string "15000000000000000") 4))
      = Core.mkTransition contextOf HANDSHAKING
          (mkContext channels groups cursor) []
      ∧ (channels ≠ [] ∨ groups ≠ []).
Proof.
  apply (unsubscribed_transitions
           (restore [] ["group1"] (timetoken_string "15000000000000000") 4)).
  reflexivity.
Defined.

End SubscriptionExtras.

(** ** Message actions: validation *)

Module MessageActionExtras.
Import AddMessageAction.

(** The checks of [validate], in the order the method makes them. *)
Ltac validate_cases parameters :=
  unfold validate;
  destruct (Js.truthy (subscribeKey parameters)) eqn:Hkey; cbn [negb];
  [destruct (Js.truthy (channel parameters)) eqn:Hchannel; cbn [negb];
   [destruct (Js.truthy (messageTimetoken parameters)) eqn:Htimetoken;
    cbn [negb];
    [destruct (action parameters) as [a|] eqn:Haction;
     [destruct (Js.truthy (value a)) eqn:Hvalue; cbn [negb];
      [destruct (Js.truthy (type a)) eqn:Htype; cbn [negb];
       [destruct (type_too_long a) eqn:Hlength|]|]|]|]|]|].

Lemma type_too_long_true (a : Action) :
  type_too_long a = true
  ↔ ∃ t, type a = Some t ∧ (15 < String.length t)%nat.
Proof.
  unfold type_too_long. rewrite Nat.ltb_lt. destruct (type a) as [t|]; cbn.
  - split; [intros Hlen; by exists t|]. by intros (t' & [= <-] & Hlen).
  - split; [lia|]. by intros (t' & [=] & _).
Qed.

Lemma type_too_long_false (a : Action) (t : string) :
  type a = Some t → type_too_long a = false ↔ (String.length t ≤ 15)%nat.
Proof.
  intros Ht. unfold type_too_long. rewrite Ht, Nat.ltb_ge. done.
Qed.

(** X9: [validate] of an Add Message Action request accepts the parameters
    (returns [undefined]) exactly when the subscribe key, the channel and
    the message timetoken are non-empty and the action has a non-empty
    value and a non-empty type of at most 15 characters; a type of exactly
    15 characters is accepted. *)
Theorem validate_accepts (parameters : RequestParameters) :
  validate parameters = None
  ↔ Js.truthy (subscribeKey parameters) = true
    ∧ Js.truthy (channel parameters) = true
    ∧ Js.truthy (messageTimetoken parameters) = true
    ∧ ∃ a t, action parameters = Some a
             ∧ Js.truthy (value a) = true
             ∧ type a = Some t ∧ t ≠ ""
             ∧ (String.length t ≤ 15)%nat.
Proof.
  validate_cases parameters; split; try done;
    try (intros (? & ? & ? & a' & t & Ha & Hv & Ht & Hne & Hlen);
         try discriminate; injection Ha as <-).
  - apply (type_too_long_false a t Ht) in Hlen. congruence.
  - intros _. repeat (split; [done|]).
    apply JsFacts.truthy_true in Htype as (t & Ht & Hne).
    exists a, t. repeat (split; [done|]).
    by apply (type_too_long_false a t Ht).
  - rewrite Ht in Htype. cbn in Htype.
    apply negb_false_iff, String.eqb_eq in Htype. done.
  - congruence.
Qed.

(** X10: the over-length error is the last check: [validate] returns
    ['Action.type value exceed maximum length of 15'] exactly when every
    other item is present and the action type has more than 15 characters;
    and a missing item is reported in the order subscribe key, channel,
    message timetoken, action, action value, action type, the first missing
    one hiding the later ones. *)
Theorem validate_reports (parameters : RequestParameters) :
  (validate parameters = Some "Action.type value exceed maximum length of 15"
   ↔ Js.truthy (subscribeKey parameters) = true
     ∧ Js.truthy (channel parameters) = true
     ∧ Js.truthy (messageTimetoken parameters) = true
     ∧ ∃ a t, action parameters = Some a
              ∧ Js.truthy (value a) = true
              ∧ type a = Some t ∧ (15 < String.length t)%nat)
  ∧ (validate parameters = Some "Missing Subscribe Key"
     ↔ Js.truthy (subscribeKey parameters) = false)
  ∧ (validate parameters = Some "Missing message channel"
     ↔ Js.truthy (subscribeKey parameters) = true
       ∧ Js.truthy (channel parameters) = false)
  ∧ (validate parameters = Some "Missing message timetoken"
     ↔ Js.truthy (subscribeKey parameters) = true
       ∧ Js.truthy (channel parameters) = true
       ∧ Js.truthy (messageTimetoken parameters) = false)
  ∧ (validate parameters = Some "Missing Action"
     ↔ Js.truthy (subscribeKey parameters) = true
       ∧ Js.truthy (channel parameters) = true
       ∧ Js.truthy (messageTimetoken parameters) = true
       ∧ action parameters = None)
  ∧ (validate parameters = Some "Missing Action.value"
     ↔ Js.truthy (subscribeKey parameters) = true
       ∧ Js.truthy (channel parameters) = true
       ∧ Js.truthy (messageTimetoken parameters) = true
       ∧ ∃ a, action parameters = Some a ∧ Js.truthy (value a) = false)
  ∧ (validate parameters = Some "Missing Action.type"
     ↔ Js.truthy (subscribeKey parameters) = true
       ∧ Js.truthy (channel parameters) = true
       ∧ Js.truthy (messageTimetoken parameters) = true
       ∧ ∃ a, action parameters = Some a
              ∧ Js.truthy (value a) = true ∧ Js.truthy (type a) = false).
Proof.
  validate_cases parameters; repeat split; intros; try done;
    repeat match goal with
           | H : _ ∧ _ |- _ => destruct H
           | H : ∃ _, _ |- _ => destruct H
           | H : Some _ = Some _ |- _ => injection H as <-
           end;
    try discriminate; try congruence; try (by exists a).
  - apply type_too_long_true in Hlength as (t & Ht & Hlen). by exists a, t.
  - assert (type_too_long a = true) as Hlong; [|congruence].
    apply type_too_long_true. by eexists.
  - match goal with
    | Ht : type a = Some ?t |- _ =>
        rewrite Ht in Htype; cbn in Htype;
        apply negb_false_iff, String.eqb_eq in Htype; subst t
    end.
    cbn in *. lia.
Qed.

End MessageActionExtras.

(** ** App Context requests: the query *)

Module QueryExtras.
Import Query.

Lemma get_app (q1 q2 : Query) (key : string) :
  get (q1 ++ q2) key
  = match get q1 key with
    | Some v => Some v
    | None => get q2 key
    end.
Proof.
  induction q1 as [|[k v] q1 IH]; [done|].
  cbn. by destruct (String.eqb k key).
Qed.

Lemma push_if_app (flag : option bool) (name : string) (l : list string) :
  push_if flag name l = l ++ (if Js.truthy_bool flag then [name] else []).
Proof. unfold push_if. destruct (Js.truthy_bool flag); by rewrite ?app_nil_r. Qed.

Lemma elem_of_push_if (flag : option bool) (name x : string)
    (l : list string) :
  x ∈ push_if flag name l ↔ x ∈ l ∨ (flag = Some true ∧ x = name).
Proof.
  unfold push_if. destruct flag as [[|]|]; cbn.
  - rewrite elem_of_app, list_elem_of_singleton. tauto.
  - split; [by left|]. by intros [|[[=] _]].
  - split; [by left|]. by intros [|[[=] _]].
Qed.

(** The entries [paging] contributes, one key at a time. *)
Lemma get_paging_limit (filter : option string) (page : option Page)
    (limit : option Z) (s : Sorting) :
  get (paging filter page limit s) "limit"
  = match limit with
    | None | Some 0%Z => None
    | Some n => Some (number_value n)
    end.
Proof.
  unfold paging, entry_if.
  destruct (Js.truthy filter), (Js.truthy (page ≫= next)),
    (Js.truthy (page ≫= prev)), (sorting_length s =? 0)%nat,
    limit as [[|n|n]|]; reflexivity.
Qed.

Lemma get_paging_start (filter : option string) (page : option Page)
    (limit : option Z) (s : Sorting) :
  get (paging filter page limit s) "start"
  = if Js.truthy (page ≫= next)
    then Some (string_value (Js.nullish (page ≫= next) ""))
    else None.
Proof.
  unfold paging, entry_if.
  destruct (Js.truthy filter), (Js.truthy (page ≫= next)),
    (Js.truthy (page ≫= prev)), (sorting_length s =? 0)%nat,
    (Js.nullish limit 0 =? 0)%Z; reflexivity.
Qed.

Lemma get_paging_end (filter : option string) (page : option Page)
    (limit : option Z) (s : Sorting) :
  get (paging filter page limit s) "end"
  = if Js.truthy (page ≫= prev)
    then Some (string_value (Js.nullish (page ≫= prev) ""))
    else None.
Proof.
  unfold paging, entry_if.
  destruct (Js.truthy filter), (Js.truthy (page ≫= next)),
    (Js.truthy (page ≫= prev)), (sorting_length s =? 0)%nat,
    (Js.nullish limit 0 =? 0)%Z; reflexivity.
Qed.

Lemma get_paging_filter (filter : option string) (page : option Page)
    (limit : option Z) (s : Sorting) :
  get (paging filter page limit s) "filter"
  = if Js.truthy filter
    then Some (string_value (Js.nullish filter ""))
    else None.
Proof.
  unfold paging, entry_if.
  destruct (Js.truthy filter), (Js.truthy (page ≫= next)),
    (Js.truthy (page ≫= prev)), (sorting_length s =? 0)%nat,
    (Js.nullish limit 0 =? 0)%Z; reflexivity.
Qed.

Lemma get_paging_sort (filter : option string) (page : option Page)
    (limit : option Z) (s : Sorting) :
  get (paging filter page limit s) "sort"
  = if (sorting_length s =? 0)%nat then None else Some (sorting_value s).
Proof.
  unfold paging, entry_if.
  destruct (Js.truthy filter), (Js.truthy (page ≫= next)),
    (Js.truthy (page ≫= prev)), (sorting_length s =? 0)%nat,
    (Js.nullish limit 0 =? 0)%Z; reflexivity.
Qed.

Lemma get_paging_other (filter : option string) (page : option Page)
    (limit : option Z) (s : Sorting) :
  get (paging filter page limit s) "count" = None
  ∧ get (paging filter page limit s) "include" = None.
Proof.
  unfold paging, entry_if.
  destruct (Js.truthy filter), (Js.truthy (page ≫= next)),
    (Js.truthy (page ≫= prev)), (sorting_length s =? 0)%nat,
    (Js.nullish limit 0 =? 0)%Z; split; reflexivity.
Qed.

Lemma NoDup_keys_paging (filter : option string) (page : option Page)
    (limit : option Z) (s : Sorting) :
  NoDup ("count" :: "include" :: keys (paging filter page limit s)).
Proof.
  unfold paging, entry_if.
  destruct (Js.truthy filter), (Js.truthy (page ≫= next)),
    (Js.truthy (page ≫= prev)), (sorting_length s =? 0)%nat,
    (Js.nullish limit 0 =? 0)%Z;
    cbn; refine (bool_decide_unpack _ _); vm_compute; exact I.
Qed.

(** A sort object yields one entry per field, ["field:order"] or the bare
    field name when the order is [null]. *)
Lemma sorting_object (entries : list (string * option SortOrder)) :
  sorting (Some (sort_object entries)) = sorting_list (map sort_entry entries)
  ∧ sorting_length (sorting (Some (sort_object entries))) = length entries.
Proof. split; [done|]. cbn. by rewrite length_map. Qed.

(** An entry guarded by the truthiness of an optional string carries that
    string, and is there exactly when the string is non-empty. *)
Lemma get_truthy (value : option string) (s : string) :
  (if Js.truthy value
   then Some (string_value (Js.nullish value ""))
   else None) = Some (string_value s)
  ↔ value = Some s ∧ s ≠ "".
Proof.
  destruct (Js.truthy value) eqn:Htruthy.
  - apply JsFacts.truthy_true in Htruthy as (s' & -> & Hne). cbn. split.
    + by intros [= <-].
    + by intros [[= <-] _].
  - apply JsFacts.truthy_false in Htruthy as [->| ->]; split; try done.
    + by intros [[=] _].
    + by intros [[= <-] Hne].
Qed.

Lemma sorting_empty (sort : option Sort) :
  (if (sorting_length (sorting sort) =? 0)%nat
   then None
   else Some (sorting_value (sorting sort))) = None
  ↔ sort = None ∨ sort = Some (sort_string "")
    ∨ sort = Some (sort_object []).
Proof.
  destruct sort as [[s|entries]|]; cbn.
  - destruct s; cbn; split; try done.
    + intros _. right. by left.
    + intros [|[|]]; done.
  - rewrite length_map. destruct entries; cbn; split; try done.
    + intros _. right. by right.
    + intros [|[|]]; done.
  - split; [by left|done].
Qed.

End QueryExtras.

Module MembersQueryExtras.
Import Query SetChannelMembers SetChannelMembersQuery.

Lemma truthy_bool_true (flag : option bool) :
  flag = Some true ↔ Js.truthy_bool flag = true.
Proof. destruct flag as [[|]|]; cbn; split; done. Qed.

Lemma members_includeFlags_defaults (i : Include) :
  ∃ rest, includeFlags i = ["uuid.status"; "uuid.type"; "type"] ++ rest.
Proof.
  unfold includeFlags. rewrite !QueryExtras.push_if_app, <- !app_assoc.
  by eexists.
Qed.

(** The query of a constructed request, entry by entry. *)
Lemma members_queryParameters_constructor (parameters : Parameters) :
  let i := default_include (include (request parameters)) in
  queryParameters (constructor parameters)
  = Some
      (("count", string_value (boolean_to_string (totalCount i)))
       :: ("include", string_value (String.concat "," (includeFlags i)))
       :: paging (filter parameters) (page parameters)
            (Some (Js.nullish (limit (request parameters)) LIMIT))
            (sorting (sort parameters))).
Proof.
  intros i. unfold queryParameters, constructor. cbn. fold i.
  destruct (members_includeFlags_defaults i) as [rest ->]. reflexivity.
Qed.

(** X11: the query of a constructed Set Channel Members request always
    exists (reading [include] never fails once the constructor has applied
    the defaults), has no key twice, has a [count] that is ['true'] or
    ['false'] as [include.totalCount] asks (['false'] when left out), and
    always has an [include] entry: the comma-separated include flags, which
    start with [uuid.status], [uuid.type] and [type]. *)
Theorem members_query (parameters : Parameters) :
  let i := default_include (include (request parameters)) in
  ∃ (q : Query) (rest : list string),
    queryParameters (constructor parameters) = Some q
    ∧ NoDup (keys q)
    ∧ get q "count"
      = Some (string_value
                (if Js.nullish (include (request parameters) ≫= totalCount)
                      false
                 then "true" else "false"))
    ∧ get q "include"
      = Some (string_value (String.concat "," (includeFlags i)))
    ∧ includeFlags i = ["uuid.status"; "uuid.type"; "type"] ++ rest.
Proof.
  intros i. destruct (members_includeFlags_defaults i) as [rest Hrest].
  eexists _, rest. split; [apply members_queryParameters_constructor|].
  split; [apply QueryExtras.NoDup_keys_paging|].
  split; [|split; [reflexivity|exact Hrest]].
  cbn. unfold i, default_include.
  destruct (include (request parameters)) as [inc|]; cbn; [|done].
  by destruct (totalCount inc) as [[|]|].
Qed.

(** X12: what the include flags of a Set Channel Members request name.
    [custom], [uuid], [uuid.custom] and [status] are named exactly when the
    matching include option is [true]; [uuid.status], [uuid.type] and [type]
    are named whatever the options say, also when they are [false]; and the
    list names a flag twice exactly when [typeField], [UUIDStatusField] or
    [UUIDTypeField] is [true]. *)
Theorem members_includeFlags (i : Include) :
  ("custom" ∈ includeFlags i ↔ customFields i = Some true)
  ∧ ("uuid" ∈ includeFlags i ↔ UUIDFields i = Some true)
  ∧ ("uuid.custom" ∈ includeFlags i ↔ customUUIDFields i = Some true)
  ∧ ("status" ∈ includeFlags i ↔ statusField i = Some true)
  ∧ "uuid.status" ∈ includeFlags i
  ∧ "uuid.type" ∈ includeFlags i
  ∧ "type" ∈ includeFlags i
  ∧ (NoDup (includeFlags i)
     ↔ typeField i ≠ Some true ∧ UUIDStatusField i ≠ Some true
       ∧ UUIDTypeField i ≠ Some true).
Proof.
  rewrite !truthy_bool_true. unfold includeFlags, push_if.
  destruct (Js.truthy_bool (customUUIDFields i)),
    (Js.truthy_bool (UUIDTypeField i)), (Js.truthy_bool (UUIDStatusField i)),
    (Js.truthy_bool (UUIDFields i)), (Js.truthy_bool (customFields i)),
    (Js.truthy_bool (typeField i)), (Js.truthy_bool (statusField i));
    refine (bool_decide_unpack _ _); vm_compute; exact I.
Qed.

(** X13: the paging entries of a constructed Set Channel Members request.
    [limit] is 100 when the parameter is left out, is absent when the
    parameter is 0, and is the parameter otherwise; [start], [end] and
    [filter] are present exactly when [page.next], [page.prev] and [filter]
    are non-empty strings, which they then carry; [sort] is absent for an
    empty string or an object without entries. *)
Theorem members_paging (parameters : Parameters) :
  ∃ q : Query,
    queryParameters (constructor parameters) = Some q
    ∧ get q "limit"
      = match limit (request parameters) with
        | None => Some (number_value 100)
        | Some 0%Z => None
        | Some n => Some (number_value n)
        end
    ∧ (∀ s, get q "start" = Some (string_value s)
            ↔ page parameters ≫= next = Some s ∧ s ≠ "")
    ∧ (∀ s, get q "end" = Some (string_value s)
            ↔ page parameters ≫= prev = Some s ∧ s ≠ "")
    ∧ (∀ s, get q "filter" = Some (string_value s)
            ↔ filter parameters = Some s ∧ s ≠ "")
    ∧ (get q "sort" = None
       ↔ sort parameters = None ∨ sort parameters = Some (sort_string "")
         ∨ sort parameters = Some (sort_object [])).
Proof.
  eexists. split; [apply members_queryParameters_constructor|].
  cbn [get String.eqb Ascii.eqb Bool.eqb].
  rewrite QueryExtras.get_paging_limit, QueryExtras.get_paging_start,
    QueryExtras.get_paging_end, QueryExtras.get_paging_filter,
    QueryExtras.get_paging_sort.
  split; [by destruct (limit (request parameters)) as [[|n|n]|]|].
  split; [|split; [|split]].
  - intros s. apply QueryExtras.get_truthy.
  - intros s. apply QueryExtras.get_truthy.
  - intros s. apply QueryExtras.get_truthy.
  - apply QueryExtras.sorting_empty.
Qed.

End MembersQueryExtras.

Module MembershipsQueryExtras.
Import Query SetUUIDMemberships SetUUIDMembershipsQuery.

Lemma memberships_includeFlags_defaults (i : Include) :
  ∃ rest,
    includeFlags i = ["channel.status"; "channel.type"; "status"] ++ rest.
Proof.
  unfold includeFlags. rewrite !QueryExtras.push_if_app, <- !app_assoc.
  by eexists.
Qed.

(** The query of a constructed request, entry by entry. *)
Lemma memberships_queryParameters_constructor (parameters : Parameters) :
  let i := default_include (include (request parameters)) in
  queryParameters (constructor parameters)
  = Some
      (("count", string_value (boolean_to_string (totalCount i)))
       :: ("include", string_value (String.concat "," (includeFlags i)))
       :: paging (filter parameters) (page parameters)
            (Some (Js.nullish (limit (request parameters)) LIMIT))
            (sorting (sort parameters))).
Proof.
  intros i. unfold queryParameters, constructor. cbn. fold i.
  destruct (memberships_includeFlags_defaults i) as [rest ->]. reflexivity.
Qed.

(** X14: the query of a constructed Set UUID Memberships request always
    exists, has no key twice, has a [count] that is ['true'] or ['false']
    as [include.totalCount] asks (['false'] when left out), and always has
    an [include] entry: the comma-separated include flags, which start with
    [channel.status], [channel.type] and [status]. *)
Theorem memberships_query (parameters : Parameters) :
  let i := default_include (include (request parameters)) in
  ∃ (q : Query) (rest : list string),
    queryParameters (constructor parameters) = Some q
    ∧ NoDup (keys q)
    ∧ get q "count"
      = Some (string_value
                (if Js.nullish (include (request parameters) ≫= totalCount)
                      false
                 then "true" else "false"))
    ∧ get q "include"
      = Some (string_value (String.concat "," (includeFlags i)))
    ∧ includeFlags i = ["channel.status"; "channel.type"; "status"] ++ rest.
Proof.
  intros i. destruct (memberships_includeFlags_defaults i) as [rest Hrest].
  eexists _, rest. split; [apply memberships_queryParameters_constructor|].
  split; [apply QueryExtras.NoDup_keys_paging|].
  split; [|split; [reflexivity|exact Hrest]].
  cbn. unfold i, default_include.
  destruct (include (request parameters)) as [inc|]; cbn; [|done].
  by destruct (totalCount inc) as [[|]|].
Qed.

(** X15: what the include flags of a Set UUID Memberships request name.
    [custom], [channel], [channel.custom] and [type] are named exactly when
    the matching include option is [true]; [channel.status], [channel.type]
    and [status] are named whatever the options say, also when they are
    [false]; and the list names a flag twice exactly when [statusField],
    [channelStatusField] or [channelTypeField] is [true]. *)
Theorem memberships_includeFlags (i : Include) :
  ("custom" ∈ includeFlags i ↔ customFields i = Some true)
  ∧ ("channel" ∈ includeFlags i ↔ channelFields i = Some true)
  ∧ ("channel.custom" ∈ includeFlags i ↔ customChannelFields i = Some true)
  ∧ ("type" ∈ includeFlags i ↔ typeField i = Some true)
  ∧ "channel.status" ∈ includeFlags i
  ∧ "channel.type" ∈ includeFlags i
  ∧ "status" ∈ includeFlags i
  ∧ (NoDup (includeFlags i)
     ↔ statusField i ≠ Some true ∧ channelStatusField i ≠ Some true
       ∧ channelTypeField i ≠ Some true).
Proof.
  rewrite !MembersQueryExtras.truthy_bool_true. unfold includeFlags, push_if.
  destruct (Js.truthy_bool (customChannelFields i)),
    (Js.truthy_bool (channelTypeField i)),
    (Js.truthy_bool (channelStatusField i)),
    (Js.truthy_bool (channelFields i)), (Js.truthy_bool (customFields i)),
    (Js.truthy_bool (typeField i)), (Js.truthy_bool (statusField i));
    refine (bool_decide_unpack _ _); vm_compute; exact I.
Qed.

(** X16: the paging entries of a constructed Set UUID Memberships request.
    [limit] is 100 when the parameter is left out, is absent when the
    parameter is 0, and is the parameter otherwise; [start], [end] and
    [filter] are present exactly when [page.next], [page.prev] and [filter]
    are non-empty strings, which they then carry; [sort] is absent for an
    empty string or an object without entries. *)
Theorem memberships_paging (parameters : Parameters) :
  ∃ q : Query,
    queryParameters (constructor parameters) = Some q
    ∧ get q "limit"
      = match limit (request parameters) with
        | None => Some (number_value 100)
        | Some 0%Z => None
        | Some n => Some (number_value n)
        end
    ∧ (∀ s, get q "start" = Some (string_value s)
            ↔ page parameters ≫= next = Some s ∧ s ≠ "")
    ∧ (∀ s, get q "end" = Some (string_value s)
            ↔ page parameters ≫= prev = Some s ∧ s ≠ "")
    ∧ (∀ s, get q "filter" = Some (string_value s)
            ↔ filter parameters = Some s ∧ s ≠ "")
    ∧ (get q "sort" = None
       ↔ sort parameters = None ∨ sort parameters = Some (sort_string "")
         ∨ sort parameters = Some (sort_object [])).
Proof.
  eexists. split; [apply memberships_queryParameters_constructor|].
  cbn [get String.eqb Ascii.eqb Bool.eqb].
  rewrite QueryExtras.get_paging_limit, QueryExtras.get_paging_start,
    QueryExtras.get_paging_end, QueryExtras.get_paging_filter,
    QueryExtras.get_paging_sort.
  split; [by destruct (limit (request parameters)) as [[|n|n]|]|].
  split; [|split; [|split]].
  - intros s. apply QueryExtras.get_truthy.
  - intros s. apply QueryExtras.get_truthy.
  - intros s. apply QueryExtras.get_truthy.
  - apply QueryExtras.sorting_empty.
Qed.

End MembershipsQueryExtras.

(** ** Configuration defaults: presence timeout, origin and errors *)

Module ConfigurationExtras.
Import Configuration.

#[local] Open Scope Q_scope.


(** The shape of a returned configuration. *)
Lemma setDefaults_returned (c : UserConfiguration)
    (result : ExtendedConfiguration * list string) :
  setDefaults c = returned result →
  let checked := checked_presenceTimeout (presenceTimeout c) in
  result.2 = checked.2
  ∧ presenceTimeout (configurationCopy result.1)
    = Some (Js.nullish checked.1 PRESENCE_TIMEOUT)
  ∧ heartbeatInterval (configurationCopy result.1)
    = match checked.1 with
      | Some timeout => Some (timeout / 2 - 1)
      | None => heartbeatInterval c
      end
  ∧ origin (configurationCopy result.1)
    = (if origin_falsy (origin c)
       then Some (origin_list default_origin)
       else origin c).
Proof.
  unfold setDefaults.
  destruct (Js.truthy (userId c) && Js.truthy (uuid c)); [done|].
  destruct (negb (Js.truthy (Js.nullish_assign (userId c) (uuid c))));
    [done|].
  destruct (String.length _ =? 0)%nat; [done|].
  destruct (checked_presenceTimeout (presenceTimeout c)) as [timeout warnings].
  by intros [= <-].
Qed.




(** X20: the origin of a returned configuration is never missing and never
    the empty string: a missing or empty origin is replaced by the list of
    the 20 hosts [ps1.pndsn.com] to [ps20.pndsn.com]; a non-empty host name
    and any list of host names, the empty list included, are kept. *)
Theorem origin_default (c : UserConfiguration)
    (result : ExtendedConfiguration * list string) :
  setDefaults c = returned result →
  ∃ o,
    origin (configurationCopy result.1) = Some o
    ∧ o ≠ origin_string ""
    ∧ (origin c = None ∨ origin c = Some (origin_string "") →
       o = origin_list default_origin)
    ∧ (∀ s, s ≠ "" → origin c = Some (origin_string s) → o = origin_string s)
    ∧ (∀ l, origin c = Some (origin_list l) → o = origin_list l)
    ∧ length default_origin = 20%nat
    ∧ default_origin !! 0%nat = Some "ps1.pndsn.com"
    ∧ default_origin !! 19%nat = Some "ps20.pndsn.com".
Proof.
  intros (_ & _ & _ & Horigin)%setDefaults_returned. rewrite Horigin.
  assert (length default_origin = 20%nat
          ∧ default_origin !! 0%nat = Some "ps1.pndsn.com"%string
          ∧ default_origin !! 19%nat = Some "ps20.pndsn.com"%string)
    as Hhosts by (repeat split; reflexivity).
  destruct (origin c) as [[s|l]|].
  - unfold origin_falsy, Js.truthy.
    destruct (String.eqb_spec s "") as [->|Hne]; cbn [negb].
    + exists (origin_list default_origin).
      split; [done|]. split; [done|]. split; [done|].
      split; [by intros s Hne [= <-]|]. split; [by intros l [=]|done].
    + exists (origin_string s).
      split; [done|]. split; [by intros [= ->]|].
      split; [by intros [[=]|[= ->]]|].
      split; [by intros s' _ [= <-]|]. split; [by intros l [=]|done].
  - exists (origin_list l). cbn [origin_falsy].
    split; [done|]. split; [done|]. split; [by intros [[=]|[=]]|].
    split; [by intros s _ [=]|]. split; [by intros l' [= <-]|done].
  - exists (origin_list default_origin). cbn [origin_falsy].
    split; [done|]. split; [done|]. split; [done|].
    split; [by intros s _ [=]|]. split; [by intros l [=]|done].
Qed.

(** X21: which error [setDefaults] throws.  ['use only userId'] exactly when
    [userId] and [uuid] are both non-empty; ['userId not set'] exactly when
    they are not and the identifier ([userId], or [uuid] when [userId] is
    absent) is missing or the empty string; ['userId is empty'] exactly when
    they are not and the identifier is a non-empty string of white space. *)
Theorem setDefaults_errors (c : UserConfiguration) :
  let both := Js.truthy (userId c) = true ∧ Js.truthy (uuid c) = true in
  let identifier := Js.nullish_assign (userId c) (uuid c) in
  (setDefaults c
   = thrown (mkPubNubError
               "PubNub client configuration error: use only 'userId'")
   ↔ both)
  ∧ (setDefaults c
     = thrown (mkPubNubError
                 "PubNub client configuration error: 'userId' not set")
     ↔ ¬ both ∧ (identifier = None ∨ identifier = Some ""%string))
  ∧ (setDefaults c
     = thrown (mkPubNubError
                 "PubNub client configuration error: 'userId' is empty")
     ↔ ¬ both
       ∧ ∃ s, identifier = Some s ∧ s ≠ ""%string
              ∧ Js.all_white_space s = true).
Proof.
  intros both identifier.
  assert (both ↔ Js.truthy (userId c) && Js.truthy (uuid c) = true) as Hboth
    by (unfold both; by rewrite andb_true_iff).
  rewrite Hboth. fold identifier.
  destruct (Js.truthy (userId c) && Js.truthy (uuid c)) eqn:Hb.
  - rewrite (ConfigurationFacts.setDefaults_both c Hb).
    repeat split; try done; by intros [? _].
  - destruct (Js.truthy identifier) eqn:Htruthy.
    + pose proof Htruthy as (s & Hs & Hne)%JsFacts.truthy_true.
      destruct (String.length (Js.trim (Js.nullish identifier "")) =? 0)%nat
        eqn:Hlength.
      * rewrite (ConfigurationFacts.setDefaults_empty c Hb Htruthy Hlength).
        repeat split; try done.
        -- intros [_ [Hnone|Hempty]]; congruence.
        -- exists s. repeat split; try done.
           rewrite Hs in Hlength. by apply JsFacts.trim_length_zero.
      * destruct (ConfigurationFacts.setDefaults_returns c Hb Htruthy Hlength)
          as (result & -> & _).
        repeat split; try done.
        -- intros [_ [Hnone|Hempty]]; congruence.
        -- intros [_ (s' & Hs' & _ & Hwhite)].
           assert (s' = s) as -> by congruence.
           apply JsFacts.trim_length_zero in Hwhite.
           rewrite Hs in Hlength. cbn [Js.nullish] in Hlength. congruence.
    + rewrite (ConfigurationFacts.setDefaults_not_set c Hb Htruthy).
      apply JsFacts.truthy_false in Htruthy.
      repeat split; try done.
      intros [_ (s & Hs & Hne & _)]. destruct Htruthy; congruence.
Qed.




Lemma origin_default_witness :
  ∃ result o,
    setDefaults
      (ConfigurationExamples.origin_configuration (Some (origin_list [])))
    = returned result
    ∧ origin (configurationCopy result.1) = Some o
    ∧ o = origin_list [].
Proof.
  assert (∃ result,
            setDefaults
              (ConfigurationExamples.origin_configuration
                 (Some (origin_list [])))
            = returned result) as [result Hresult]
    by (eexists; vm_compute; reflexivity).
  destruct (origin_default _ result Hresult)
    as (o & Ho & _ & _ & _ & Hlist & _).
  exists result, o. split; [done|]. split; [done|]. by apply Hlist.
Defined.

End ConfigurationExtras.

(** ** Configuration defaults of the browser platform *)

Module WebConfigurationExtras.
Import Configuration WebConfiguration.

Lemma userConfiguration_disable_worker (SharedWorker_defined : bool)
    (configuration : PubNubConfiguration) :
  userConfiguration (disable_worker SharedWorker_defined configuration)
  = userConfiguration configuration.
Proof.
  unfold disable_worker.
  by destruct (url_truthy (subscriptionWorkerUrl configuration)
               && negb SharedWorker_defined).
Qed.

(** X22: the browser [setDefaults] throws exactly the errors of the core
    [setDefaults] on the same configuration, whether shared workers are
    supported or not: the platform adds no failure of its own and hides
    none. *)
Theorem web_setDefaults_errors (SharedWorker_defined : bool)
    (configuration : PubNubConfiguration) (error : PubNubError) :
  (WebConfiguration.setDefaults SharedWorker_defined configuration).2
  = thrown error
  ↔ Configuration.setDefaults (userConfiguration configuration)
    = thrown error.
Proof.
  unfold WebConfiguration.setDefaults. cbn [snd].
  rewrite userConfiguration_disable_worker.
  destruct (Configuration.setDefaults (userConfiguration configuration))
    as [[extended warnings]|e]; cbv beta iota; split; intros H;
    try discriminate H; by injection H as ->.
Qed.

(** X23: where shared workers are not supported the call leaves no usable
    worker URL: a non-empty URL is reset to [null] in the caller's
    configuration object, also when the call then throws; where they are
    supported, or when the URL is missing, [null] or empty, the caller's
    object is left as it is; and the returned defaults carry the URL of the
    caller's object as the call left it. *)
Theorem web_worker_url (SharedWorker_defined : bool)
    (configuration : PubNubConfiguration) :
  let after :=
    (WebConfiguration.setDefaults SharedWorker_defined configuration).1 in
  (SharedWorker_defined = false →
     url_truthy (subscriptionWorkerUrl after) = false)
  ∧ (SharedWorker_defined = false →
     url_truthy (subscriptionWorkerUrl configuration) = true →
     subscriptionWorkerUrl after = Some None)
  ∧ (SharedWorker_defined = true
     ∨ url_truthy (subscriptionWorkerUrl configuration) = false →
     after = configuration)
  ∧ (∀ defaults warnings,
       (WebConfiguration.setDefaults SharedWorker_defined configuration).2
       = returned (defaults, warnings) →
       default_subscriptionWorkerUrl defaults = subscriptionWorkerUrl after).
Proof.
  cbn zeta. unfold WebConfiguration.setDefaults. cbn [fst snd].
  split; [|split; [|split]].
  - intros ->. unfold disable_worker.
    destruct (url_truthy (subscriptionWorkerUrl configuration)) eqn:Hurl;
      cbn; done.
  - intros -> Hurl. unfold disable_worker. by rewrite Hurl.
  - intros [->|Hurl]; unfold disable_worker.
    + by rewrite andb_false_r.
    + by rewrite Hurl.
  - intros defaults warnings.
    destruct (Configuration.setDefaults _) as [[extended w]|e];
      cbv beta iota; [|discriminate].
    by intros [= <- _].
Qed.

(** X24: the browser platform keeps connections alive by default.  In the
    returned defaults [keepAlive] is the supplied value, or [true] when none
    was supplied, although the core default is [false]; the rest of the base
    configuration is what the core [setDefaults] returns. *)
Theorem web_keepAlive (SharedWorker_defined : bool)
    (configuration : PubNubConfiguration) (defaults : Defaults)
    (warnings : list string) :
  (WebConfiguration.setDefaults SharedWorker_defined configuration).2
  = returned (defaults, warnings) →
  let supplied := keepAlive (userConfiguration configuration) in
  ∃ extended : ExtendedConfiguration,
    Configuration.setDefaults (userConfiguration configuration)
    = returned (extended, warnings)
    ∧ keepAlive (configurationCopy extended)
      = Some (Js.nullish supplied false)
    ∧ keepAlive (configurationCopy (base defaults))
      = Some (Js.nullish supplied true)
    ∧ base defaults
      = override_keepAlive extended (Js.nullish supplied true)
    ∧ (supplied ≠ None → base defaults = extended).
Proof.
  unfold WebConfiguration.setDefaults. cbn [snd].
  rewrite userConfiguration_disable_worker.
  destruct (Configuration.setDefaults (userConfiguration configuration))
    as [[extended w]|e] eqn:Hbase; cbv beta iota; [|discriminate].
  intros [= <- <-]. exists extended.
  set (supplied := keepAlive (userConfiguration configuration)).
  split; [done|]. cbn [base].
  assert (keepAlive (configurationCopy extended)
          = Some (Js.nullish supplied false)) as Hkeep.
  { revert Hbase. unfold Configuration.setDefaults.
    destruct (Js.truthy (userId _) && Js.truthy (uuid _)); [done|].
    destruct (negb (Js.truthy (Js.nullish_assign _ _))); [done|].
    destruct (String.length _ =? 0)%nat; [done|].
    destruct (checked_presenceTimeout _) as [timeout ws].
    by intros [= <- _]. }
  split; [exact Hkeep|]. split; [done|]. split; [done|].
  intros Hsupplied. destruct supplied as [value|]; [|done].
  cbn [Js.nullish] in *. unfold override_keepAlive. rewrite <- Hkeep.
  by destruct extended as [[] ? ? ? ? ? ?].
Qed.

Lemma web_worker_url_witness :
  subscriptionWorkerUrl
    (WebConfiguration.setDefaults false
       (example_configuration (Some (Some "/worker.js")) None)).1
  = Some None.
Proof.
  apply (web_worker_url false
           (example_configuration (Some (Some "/worker.js")) None));
    reflexivity.
Defined.

Lemma web_keepAlive_witness :
  ∃ defaults warnings,
    (WebConfiguration.setDefaults true (example_configuration None None)).2
    = returned (defaults, warnings)
    ∧ keepAlive (configurationCopy (base defaults)) = Some true.
Proof.
  assert (∃ defaults warnings,
            (WebConfiguration.setDefaults true
               (example_configuration None None)).2
            = returned (defaults, warnings))
    as (defaults & warnings & Hreturned)
    by (do 2 eexists; vm_compute; reflexivity).
  exists defaults, warnings. split; [done|].
  destruct (web_keepAlive _ _ _ _ Hreturned)
    as (extended & _ & _ & Hkeep & _).
  exact Hkeep.
Defined.

End WebConfigurationExtras.
